(** * ads_citation_utils: a shallow embedding and its verified properties

    The module under study, [ads_citation_utils.py], has three functions:
    [get_ads_paper_pubdate] (one query for a paper's publication date),
    [get_ads_citing_papers] (one query for the citing papers, an optional
    date-range filter, and a row-by-row table build) and
    [plot_ADS_num_citations_by_time] (group, count, draw).

    The embedding keeps the Python semantics the functions rely on:
    decoded JSON values, subscripting and its exceptions, [str] ordering,
    [str.split], [int], and the effects (requests issued, lines printed,
    drawing calls) as a trace. *)

From Stdlib Require Import ZArith Ascii String Bool Lia Sorted.
From stdpp Require Import base option list strings.

Local Open Scope Z_scope.

(** ** Python values and exceptions *)

(** The values [response.json()] can produce.  JSON numbers are covered
    as integers; floating-point numbers are outside the model.  A dict is
    an association list read by its first binding for a key. *)
#[warnings="-register-all"]
Inductive pyval : Type :=
| PNone
| PBool (b : bool)
| PInt (n : Z)
| PStr (s : string)
| PList (l : list pyval)
| PDict (d : list (string * pyval)).

Inductive exn : Type :=
| KeyError
| IndexError
| TypeError
| ValueError
| AttributeError
| JSONDecodeError
| ConnectionError.

Inductive outcome (A : Type) : Type :=
| Ok (a : A)
| Raise (e : exn).
Arguments Ok {A} a.
Arguments Raise {A} e.

Definition obind {A B} (o : outcome A) (k : A -> outcome B) : outcome B :=
  match o with
  | Ok a => k a
  | Raise e => Raise e
  end.

Notation "'let!' x ':=' e 'in' k" := (obind e (fun x => k))
  (at level 10, x pattern, e at level 100, k at level 200).

(** ** Strings *)

Definition code (c : ascii) : N := N_of_ascii c.

(** [a < b] on two [str]: compare code points from the left, a proper
    prefix is smaller. *)
Fixpoint str_lt (a b : string) : bool :=
  match a, b with
  | _, EmptyString => false
  | EmptyString, String _ _ => true
  | String x a', String y b' =>
      if (code x <? code y)%N then true
      else if (code x =? code y)%N then str_lt a' b'
      else false
  end.

(** [s.split(sep)] for a one-character separator: every occurrence cuts,
    empty pieces are kept. *)
Fixpoint split_on (sep : ascii) (s : string) : list string :=
  match s with
  | EmptyString => [EmptyString]
  | String c s' =>
      if Ascii.eqb c sep then EmptyString :: split_on sep s'
      else match split_on sep s' with
           | [] => [String c EmptyString]
           | p :: ps => String c p :: ps
           end
  end.

(** [needle in hay] on two [str]. *)
Fixpoint is_prefix (p s : string) : bool :=
  match p, s with
  | EmptyString, _ => true
  | String _ _, EmptyString => false
  | String x p', String y s' => Ascii.eqb x y && is_prefix p' s'
  end.

Fixpoint is_substring (needle hay : string) : bool :=
  is_prefix needle hay ||
  match hay with
  | EmptyString => false
  | String _ hay' => is_substring needle hay'
  end.

(** *** [int(s)]

    A [string] stands for the [str] with the same code points, one
    character per code point below 256.

    Base-10 [int] of a [str]: surrounding whitespace is stripped, one
    sign is allowed, then decimal digits, single underscores allowed
    between digits, and a numeral of more than [int_max_str_digits]
    digits is refused.  The whitespace [int] strips is tab to carriage
    return, the space and, above 127, the two Unicode spaces U+0085 and
    U+00A0; the separators U+001C to U+001F are not stripped.  Below 256
    the only decimal digits are [0] to [9]. *)
Definition is_space (c : ascii) : bool :=
  let n := code c in
  ((9 <=? n) && (n <=? 13) || (n =? 32) || (n =? 133) || (n =? 160))%N.

Definition digit_val (c : ascii) : option Z :=
  let n := Z.of_N (code c) in
  if (48 <=? n) && (n <=? 57) then Some (n - 48) else None.

Fixpoint lstrip (s : string) : string :=
  match s with
  | EmptyString => EmptyString
  | String c s' => if is_space c then lstrip s' else s
  end.

(** Drops trailing whitespace. *)
Fixpoint rstrip (s : string) : string :=
  match s with
  | EmptyString => EmptyString
  | String c s' =>
      match rstrip s' with
      | EmptyString => if is_space c then EmptyString else String c EmptyString
      | r => String c r
      end
  end.

Inductive numeral_state : Type := AtStart | AfterDigit | AfterUnderscore.

Fixpoint digits_from (st : numeral_state) (acc : Z) (s : string) : option Z :=
  match s with
  | EmptyString =>
      match st with
      | AfterDigit => Some acc
      | _ => None
      end
  | String c s' =>
      match digit_val c with
      | Some d => digits_from AfterDigit (10 * acc + d) s'
      | None =>
          if Ascii.eqb c "_" then
            match st with
            | AfterDigit => digits_from AfterUnderscore acc s'
            | _ => None
            end
          else None
      end
  end.

(** The signed numeral a stripped text denotes, if it is one. *)
Definition numeral (body : string) : option Z :=
  match body with
  | String "+" r => digits_from AtStart 0 r
  | String "-" r => Z.opp <$> digits_from AtStart 0 r
  | _ => digits_from AtStart 0 body
  end.

Fixpoint count_digits (s : string) : Z :=
  match s with
  | EmptyString => 0
  | String c s' =>
      (if digit_val c is Some _ then 1 else 0) + count_digits s'
  end.

(** The interpreter's default limit on the digits of a decimal numeral
    ([sys.int_max_str_digits]). *)
Definition int_max_str_digits : Z := 4300.

Definition py_int (s : string) : outcome Z :=
  let body := rstrip (lstrip s) in
  match numeral body with
  | Some n =>
      if int_max_str_digits <? count_digits body then Raise ValueError
      else Ok n
  | None => Raise ValueError
  end.

(** ** Operations on decoded JSON *)

Fixpoint assoc (k : string) (d : list (string * pyval)) : option pyval :=
  match d with
  | [] => None
  | (k', v) :: d' => if String.eqb k k' then Some v else assoc k d'
  end.

(** [v[k]] for a [str] key [k]. *)
Definition getitem_str (v : pyval) (k : string) : outcome pyval :=
  match v with
  | PDict d =>
      match assoc k d with
      | Some x => Ok x
      | None => Raise KeyError
      end
  | _ => Raise TypeError
  end.

(** [v[i]] for an [int] index [i]; negative indices count from the end.
    The keys of a decoded JSON object are strings, so an integer is never
    one of them. *)
Definition index_of (len i : Z) : option nat :=
  if (0 <=? i) && (i <? len) then Some (Z.to_nat i)
  else if (- len <=? i) && (i <? 0) then Some (Z.to_nat (len + i))
  else None.

Definition str_at (s : string) (n : nat) : option string :=
  match String.get n s with
  | Some c => Some (String c EmptyString)
  | None => None
  end.

Definition getitem_int (v : pyval) (i : Z) : outcome pyval :=
  match v with
  | PList l =>
      match index_of (Z.of_nat (length l)) i with
      | Some n =>
          match l !! n with
          | Some x => Ok x
          | None => Raise IndexError
          end
      | None => Raise IndexError
      end
  | PStr s =>
      match index_of (Z.of_nat (String.length s)) i with
      | Some n =>
          match str_at s n with
          | Some x => Ok (PStr x)
          | None => Raise IndexError
          end
      | None => Raise IndexError
      end
  | PDict _ => Raise KeyError
  | _ => Raise TypeError
  end.

(** [==] on decoded JSON: [bool] is a subtype of [int], dicts are equal
    when they hold the same bindings. *)
Fixpoint py_eq (a b : pyval) {struct a} : bool :=
  match a, b with
  | PNone, PNone => true
  | PBool x, PBool y => Bool.eqb x y
  | PBool x, PInt n => Z.b2z x =? n
  | PInt n, PBool x => n =? Z.b2z x
  | PInt m, PInt n => m =? n
  | PStr s, PStr t => String.eqb s t
  | PList xs, PList ys =>
      (fix go (xs ys : list pyval) {struct xs} : bool :=
         match xs, ys with
         | [], [] => true
         | x :: xs', y :: ys' => py_eq x y && go xs' ys'
         | _, _ => false
         end) xs ys
  | PDict d, PDict e =>
      Nat.eqb (length d) (length e) &&
      (fix go (d : list (string * pyval)) {struct d} : bool :=
         match d with
         | [] => true
         | (k, v) :: d' =>
             match assoc k e with
             | Some w => py_eq v w
             | None => false
             end && go d'
         end) d
  | _, _ => false
  end.

(** [k in v] for a [str] constant [k]. *)
Definition py_contains (k : string) (v : pyval) : outcome bool :=
  match v with
  | PDict d => Ok (bool_decide (is_Some (assoc k d)))
  | PList l => Ok (existsb (py_eq (PStr k)) l)
  | PStr s => Ok (is_substring k s)
  | _ => Raise TypeError
  end.

(** [v.get(k, default)]: only a dict has the method. *)
Definition py_get (v : pyval) (k : string) (default : pyval) : outcome pyval :=
  match v with
  | PDict d =>
      match assoc k d with
      | Some x => Ok x
      | None => Ok default
      end
  | _ => Raise AttributeError
  end.

(** The items a [for] loop draws from [v]: the elements of a list, the
    keys of a dict, the characters of a string. *)
Fixpoint chars (s : string) : list pyval :=
  match s with
  | EmptyString => []
  | String c s' => PStr (String c EmptyString) :: chars s'
  end.

Definition py_iter (v : pyval) : outcome (list pyval) :=
  match v with
  | PList l => Ok l
  | PDict d => Ok (map (fun kv => PStr (fst kv)) d)
  | PStr s => Ok (chars s)
  | _ => Raise TypeError
  end.

Definition as_int (v : pyval) : option Z :=
  match v with
  | PBool b => Some (Z.b2z b)
  | PInt n => Some n
  | _ => None
  end.

(** [a < b]: defined between two strings, between two numbers and
    between two lists (first unequal position decides, else the shorter
    list is smaller); any other pairing raises [TypeError]. *)
Fixpoint py_lt (a b : pyval) {struct a} : outcome bool :=
  match a, b with
  | PStr s, PStr t => Ok (str_lt s t)
  | PList xs, PList ys =>
      (fix go (xs ys : list pyval) {struct xs} : outcome bool :=
         match xs, ys with
         | [], [] => Ok false
         | [], _ :: _ => Ok true
         | _ :: _, [] => Ok false
         | x :: xs', y :: ys' => if py_eq x y then go xs' ys' else py_lt x y
         end) xs ys
  | _, _ =>
      match as_int a, as_int b with
      | Some m, Some n => Ok (m <? n)
      | _, _ => Raise TypeError
      end
  end.

(** [a > b] between built-in values is [b < a]. *)
Definition py_gt (a b : pyval) : outcome bool := py_lt b a.

(** ** The remote service, the clock and the effect trace *)

Record request : Type := Request {
  url : string;
  headers : list (string * string);
  params : list (string * pyval)
}.

(** [body] is the decoded JSON payload; [None] stands for a payload that
    is not JSON, on which [response.json()] raises. *)
Record response : Type := Response {
  status_code : Z;
  body : option pyval
}.

Record date : Type := Date {
  dyear : Z;
  dmonth : Z;
  dday : Z
}.

Definition digit_char (n : Z) : ascii := ascii_of_N (Z.to_N (48 + n mod 10)).

(** [d.strftime('%Y-%m-%d')]: four, two and two zero-padded digits.
    This is the text for years 1000 to 9999, on which every platform
    agrees; earlier years, which a running clock does not show, are
    printed without padding by some C libraries. *)
Definition strftime_Ymd (d : date) : string :=
  let y := dyear d in
  let m := dmonth d in
  let a := dday d in
  String (digit_char (y / 1000)) (String (digit_char (y / 100))
  (String (digit_char (y / 10)) (String (digit_char y)
  (String "-" (String (digit_char (m / 10)) (String (digit_char m)
  (String "-" (String (digit_char (a / 10)) (String (digit_char a)
  EmptyString))))))))).

(** What a call can observe: the remote answer to each request ([None]
    when the transport itself fails) and the current date. *)
Record world : Type := World {
  http_get : request -> option response;
  today : date
}.

Inductive event : Type :=
| Get (r : request)
| Print (args : list pyval)
| PlotBar (bars : list (list Z * Z))
| Legend (labels : list string)
| Xlabel (s : string)
| Xticks (rotation : Z)
| Ylabel (s : string).

Definition trace : Type := list event.

(** A computation reads the world, appends to the trace and either
    returns or raises. *)
Definition M (A : Type) : Type := world -> trace -> outcome A * trace.

Definition ret {A} (a : A) : M A := fun _ t => (Ok a, t).

Definition bind {A B} (m : M A) (k : A -> M B) : M B :=
  fun w t =>
    match m w t with
    | (Ok a, t') => k a w t'
    | (Raise e, t') => (Raise e, t')
    end.

Notation "x <- m ;; k" := (bind m (fun x => k))
  (at level 100, m at next level, right associativity).
Notation "m ;;; k" := (bind m (fun _ => k))
  (at level 100, right associativity).

Definition lift {A} (o : outcome A) : M A := fun _ t => (o, t).

Definition emit (e : event) : M unit := fun _ t => (Ok tt, t ++ [e]).

Definition print (args : list pyval) : M unit := emit (Print args).

Definition requests_get (r : request) : M response :=
  fun w t =>
    match http_get w r with
    | Some resp => (Ok resp, t ++ [Get r])
    | None => (Raise ConnectionError, t ++ [Get r])
    end.

Definition response_json (r : response) : outcome pyval :=
  match body r with
  | Some v => Ok v
  | None => Raise JSONDecodeError
  end.

Definition today_strftime : M string :=
  fun w t => (Ok (strftime_Ymd (today w)), t).

(** ** The table under construction *)

(** One row of the frame, columns [title], [bibcode], [year], [month];
    the first two cells hold the Python values as they were read, the
    last two the integers the loop computed (pandas keeps a column of
    integers exact while they fit 64 bits). *)
Record row : Type := Row {
  title : pyval;
  bibcode : pyval;
  year : Z;
  month : Z
}.

(** A frame is its rows with their index labels, in row order. *)
Definition dataframe : Type := list (Z * row).

Definition df_len (df : dataframe) : Z := Z.of_nat (length df).

(** [df.loc[lbl] = r]: overwrite the row labelled [lbl], or append a new
    row with that label. *)
Fixpoint loc_set (lbl : Z) (r : row) (df : dataframe) : dataframe :=
  match df with
  | [] => [(lbl, r)]
  | (l, x) :: df' =>
      if l =? lbl then (l, r) :: df' else (l, x) :: loc_set lbl r df'
  end.

(** What [get_ads_citing_papers] hands back: the literal [[]] of its two
    failure exits, or the frame. *)
Inductive fetched : Type :=
| EmptyList
| Frame (df : dataframe).

(** ** [get_ads_paper_pubdate] *)

Definition base_url : string := "https://api.adsabs.harvard.edu/v1/search/query?".

Definition auth_headers (api_token : string) : list (string * string) :=
  [("Authorization", "Bearer " +:+ api_token)].

Definition pubdate_request (bibcode api_token : string) : request :=
  Request base_url (auth_headers api_token)
    [("q", PStr ("bibcode:" +:+ bibcode)); ("fl", PStr "pubdate")].

(** [data["response"]["docs"][0]] *)
Definition first_doc (data : pyval) : outcome pyval :=
  let! r := getitem_str data "response" in
  let! docs := getitem_str r "docs" in
  getitem_int docs 0.

(** The result is a Python value: the stored [pubdate], or [PNone]. *)
Definition get_ads_paper_pubdate (bibcode api_token : string) : M pyval :=
  response <- requests_get (pubdate_request bibcode api_token);;
  if status_code response =? 200 then
    data <- lift (response_json response);;
    doc <- lift (first_doc data);;
    found <- lift (py_contains "pubdate" doc);;
    if found : bool then
      doc' <- lift (first_doc data);;
      lift (getitem_str doc' "pubdate")
    else ret PNone
  else ret PNone.

(** ** [get_ads_citing_papers] *)

Definition citing_request (bibcode api_token : string) : request :=
  Request base_url (auth_headers api_token)
    [("q", PStr ("citations(" +:+ bibcode +:+ ")"));
     ("fl", PStr "title,bibcode,pubdate");
     ("rows", PInt 2000);
     ("start", PInt 0);
     ("sort", PStr "date")].

Definition is_none (v : pyval) : bool :=
  match v with
  | PNone => true
  | _ => false
  end.

(** The test of the range filter:
    [(cited_pubdate is None) or (pubdate < cited_pubdate) or (pubdate > now)],
    evaluated left to right and stopping at the first true operand. *)
Definition out_of_range (cited_pubdate pubdate : pyval) (now : string) : outcome bool :=
  if is_none cited_pubdate then Ok true
  else
    let! early := py_lt pubdate cited_pubdate in
    if early : bool then Ok true else py_gt pubdate (PStr now).

(** [v.split(sep)]: only a [str] has the method. *)
Definition py_split (v : pyval) (sep : ascii) : outcome (list string) :=
  match v with
  | PStr s => Ok (split_on sep s)
  | _ => Raise AttributeError
  end.

(** [year, month, _ = pubdate.split('-')], the two [int] conversions and
    the replacement of month 0 by 1. *)
Definition parse_pubdate (pubdate : pyval) : outcome (Z * Z) :=
  let! parts := py_split pubdate "-" in
  match parts with
  | [y; m; _] =>
      let! year := py_int y in
      let! month := py_int m in
      Ok (year, if month =? 0 then 1 else month)
  | _ => Raise ValueError
  end.

(** The filter context is [Some (now, cited_pubdate)] when [remove_false]
    holds and [None] otherwise; [should_skip] is the guarded [continue]. *)
Definition should_skip (ctx : option (string * pyval)) (pubdate : pyval)
  : outcome bool :=
  match ctx with
  | Some (now, cited_pubdate) => out_of_range cited_pubdate pubdate now
  | None => Ok false
  end.

(** One pass of the loop body up to the row it builds; [Ok None] is the
    [continue] of the filter. *)
Definition process_paper (ctx : option (string * pyval)) (paper : pyval)
  : outcome (option row) :=
  let! titles := getitem_str paper "title" in
  let! title := getitem_int titles 0 in
  let! bibcode := getitem_str paper "bibcode" in
  let! pubdate := py_get paper "pubdate" (PStr "Unknown") in
  let! skip := should_skip ctx pubdate in
  if skip : bool then Ok None
  else
    let! ym := parse_pubdate pubdate in
    Ok (Some (Row title bibcode (fst ym) (snd ym))).

(** The whole loop body: [papers.loc[len(papers.index)] = [...]] for a
    paper that is not skipped. *)
Definition loop_body (ctx : option (string * pyval)) (papers : dataframe)
  (paper : pyval) : outcome dataframe :=
  let! r := process_paper ctx paper in
  match r with
  | Some x => Ok (loc_set (df_len papers) x papers)
  | None => Ok papers
  end.

Fixpoint for_papers (ctx : option (string * pyval)) (docs : list pyval)
  (papers : dataframe) : outcome dataframe :=
  match docs with
  | [] => Ok papers
  | paper :: rest =>
      let! papers' := loop_body ctx papers paper in
      for_papers ctx rest papers'
  end.

(** The items of [data["response"]["docs"]] the loop runs over. *)
Definition response_docs (r : response) : outcome (list pyval) :=
  let! data := response_json r in
  let! resp := getitem_str data "response" in
  let! docs := getitem_str resp "docs" in
  py_iter docs.

(** The function from the citing-papers request on (source lines 53-87),
    entered once the filter context is settled. *)
Definition citing_query (bibcode api_token : string)
  (ctx : option (string * pyval)) : M fetched :=
  response <- requests_get (citing_request bibcode api_token);;
  if status_code response =? 200 then
    docs <- lift (response_docs response);;
    papers <- lift (for_papers ctx docs []);;
    ret (Frame papers)
  else
    print [PStr "Error:"; PInt (status_code response)];;;
    ret EmptyList.

Definition get_ads_citing_papers (bibcode api_token : string)
  (remove_false : bool) : M fetched :=
  if remove_false then
    now <- today_strftime;;
    cited_pubdate <- get_ads_paper_pubdate bibcode api_token;;
    if is_none cited_pubdate then
      print [PStr "Unable to retrieve publication date of the cited paper."];;;
      ret EmptyList
    else citing_query bibcode api_token (Some (now, cited_pubdate))
  else citing_query bibcode api_token None.

(** ** [plot_ADS_num_citations_by_time] *)

Fixpoint key_lt (a b : list Z) : bool :=
  match a, b with
  | _, [] => false
  | [], _ :: _ => true
  | x :: a', y :: b' => (x <? y) || ((x =? y) && key_lt a' b')
  end.

Fixpoint key_eq (a b : list Z) : bool :=
  match a, b with
  | [], [] => true
  | x :: a', y :: b' => (x =? y) && key_eq a' b'
  | _, _ => false
  end.

(** Adds [n] to the count of group [k], keeping the groups in key order. *)
Fixpoint bump (k : list Z) (n : Z) (groups : list (list Z * Z))
  : list (list Z * Z) :=
  match groups with
  | [] => [(k, n)]
  | (k', c) :: rest =>
      if key_eq k k' then (k', c + n) :: rest
      else if key_lt k k' then (k, n) :: groups
      else (k', c) :: bump k n rest
  end.

Definition group_key (by_month : bool) (r : row) : list Z :=
  if by_month then [year r; month r] else [year r].

(** [df.groupby(group_cols).title.count()]: one entry per key, sorted by
    key, counting the rows whose title is not null. *)
Definition title_count (by_month : bool) (df : dataframe) : list (list Z * Z) :=
  fold_left
    (fun groups lr =>
       bump (group_key by_month (snd lr))
            (if is_none (title (snd lr)) then 0 else 1) groups)
    df [].

(** [citing_papers.groupby(group_cols)]: a list has no such attribute. *)
Definition groupby_title_count (citing_papers : fetched) (by_month : bool)
  : outcome (list (list Z * Z)) :=
  match citing_papers with
  | Frame df => Ok (title_count by_month df)
  | EmptyList => Raise AttributeError
  end.

(** [counts.plot(kind="bar")]: the drawing call is recorded as an event;
    pandas raises [IndexError] when there is no group to draw. *)
Definition plot_bar (counts : list (list Z * Z)) : M unit :=
  match counts with
  | [] => lift (Raise IndexError)
  | _ :: _ => emit (PlotBar counts)
  end.

(** The drawing calls are recorded as events; how the plotting library
    renders them is not modelled. *)
Definition plot_ADS_num_citations_by_time (bibcode api_token resolution : string)
  : M unit :=
  citing_papers <- get_ads_citing_papers bibcode api_token true;;
  let by_month := String.eqb resolution "month" in
  counts <- lift (groupby_title_count citing_papers by_month);;
  plot_bar counts;;;
  emit (Legend ["Citations by " +:+ resolution]);;;
  emit (Xlabel "Date");;;
  emit (Xticks 0);;;
  emit (Ylabel "Number of citations").

(** ** The date order of the specification *)

(** Lexicographic order in words: the two strings agree on a prefix [p],
    after which either the first ends and the second goes on, or the
    first continues with a smaller character than the second. *)
Definition lex_lt (a b : string) : Prop :=
  exists p : string,
    (exists c r, a = p /\ b = p +:+ String c r) \/
    (exists x y ra rb,
        a = p +:+ String x ra /\ b = p +:+ String y rb /\ (code x < code y)%N).

Fixpoint has_char (c : ascii) (s : string) : bool :=
  match s with
  | EmptyString => false
  | String x s' => Ascii.eqb x c || has_char c s'
  end.

(** ** Example remotes *)

(** A remote that answers the publication-date query with [lookup] and
    every other query with [citing]. *)
Definition serve (lookup citing : option response) (r : request) : option response :=
  match assoc "fl" (params r) with
  | Some (PStr f) => if String.eqb f "pubdate" then lookup else citing
  | _ => citing
  end.

Definition docs_body (docs : list pyval) : pyval :=
  PDict [("response", PDict [("docs", PList docs)])].

Definition ok_docs (docs : list pyval) : option response :=
  Some (Response 200 (Some (docs_body docs))).

Definition mkdoc (t b p : string) : pyval :=
  PDict [("title", PList [PStr t]); ("bibcode", PStr b); ("pubdate", PStr p)].

Definition lookup_ok (pubdate : string) : option response :=
  ok_docs [PDict [("pubdate", PStr pubdate)]].

Definition nov_2026 : date := Date 2026 11 3.

(** The scenario of the specification: the cited paper is dated
    2020-05-00; one citing record is earlier, three are in range (one
    with month 00, one dated like the cited paper), one has no pubdate. *)
Definition scenario_docs : list pyval :=
  [mkdoc "Earlier" "2019A" "2019-12-00";
   mkdoc "Later" "2021B" "2021-03-00";
   mkdoc "No month" "2022C" "2022-00-00";
   mkdoc "Same issue" "2020D" "2020-05-00";
   PDict [("title", PList [PStr "Undated"]); ("bibcode", PStr "2023E")]].


Definition world_scenario : world :=
  World (serve (lookup_ok "2020-05-00") (ok_docs scenario_docs)) nov_2026.

(** The cited paper is dated after the current date. *)
Definition world_future_cited : world :=
  World (serve (lookup_ok "2030-01-00") (ok_docs [mkdoc "T" "B" "2030-01-00"]))
        nov_2026.

(** The publication-date lookup is answered with status 404. *)
Definition world_lookup_404 : world :=
  World (serve (Some (Response 404 None)) (ok_docs scenario_docs)) nov_2026.

(** A citing record whose pubdate has month component 13. *)
Definition world_month_13 : world :=
  World (serve (lookup_ok "2020-05-00") (ok_docs [mkdoc "T" "B" "2021-13-00"]))
        nov_2026.

(** The publication-date query matches no document. *)
Definition world_no_match : world :=
  World (serve (ok_docs []) (ok_docs scenario_docs)) nov_2026.

(** The citing-papers query is answered with status 404. *)
Definition world_citing_404 : world :=
  World (serve (lookup_ok "2020-05-00") (Some (Response 404 None))) nov_2026.

(** A citing record without a [title] field. *)
Definition world_no_title : world :=
  World (serve (lookup_ok "2020-05-00")
               (ok_docs [PDict [("bibcode", PStr "B"); ("pubdate", PStr "2021-03-00")]]))
        nov_2026.

(** ** Invariant and context of a run *)

(** The index of a frame built by the loop is 0, 1, 2, ... in row order. *)
Definition well_labelled (df : dataframe) : Prop :=
  df.*1 = seqZ 0 (df_len df).

(** The filter context of a run whose lookup returned [cited]. *)
Definition fetch_ctx (remove_false : bool) (w : world) (cited : pyval)
  : option (string * pyval) :=
  if remove_false then Some (strftime_Ymd (today w), cited) else None.

(** ** Measures used by the further properties *)

(** The requests and the printed lines among some events. *)
Definition requests_of (evs : trace) : list request :=
  omap (fun e => match e with Get r => Some r | _ => None end) evs.

Definition prints_of (evs : trace) : list (list pyval) :=
  omap (fun e => match e with Print args => Some args | _ => None end) evs.

Definition is_drawing (e : event) : bool :=
  match e with
  | Get _ | Print _ => false
  | _ => true
  end.


(** The text made of the last decimal digit of each number. *)
Fixpoint digits_string (ds : list Z) : string :=
  match ds with
  | [] => EmptyString
  | d :: rest => String (digit_char d) (digits_string rest)
  end.

(** The number a run of digits denotes, continuing from [acc]. *)
Definition digits_value (ds : list Z) (acc : Z) : Z :=
  fold_left (fun a d => 10 * a + d mod 10) ds acc.

(** A date as one number, year first. *)
Definition date_key (d : date) : Z := dyear d * 10000 + dmonth d * 100 + dday d.

(** The fields a ten-character [YYYY-MM-DD] text can hold. *)
Definition printable (d : date) : Prop :=
  0 <= dyear d < 10000 /\ 0 <= dmonth d < 100 /\ 0 <= dday d < 100.

(** A document with a first title [t0], a bibcode [b] and the pubdate
    text of the date [d]. *)
Definition dated_doc (doc t0 b : pyval) (d : date) : Prop :=
  exists fields titles,
    doc = PDict fields /\
    assoc "title" fields = Some titles /\
    getitem_int titles 0 = Ok t0 /\
    assoc "bibcode" fields = Some b /\
    assoc "pubdate" fields = Some (PStr (strftime_Ymd d)) /\
    printable d.

(** A document with a first title and a bibcode but no pubdate field. *)
Definition undated_doc (doc : pyval) : Prop :=
  exists fields titles t0 b,
    doc = PDict fields /\
    assoc "title" fields = Some titles /\
    getitem_int titles 0 = Ok t0 /\
    assoc "bibcode" fields = Some b /\
    assoc "pubdate" fields = None.

(** The row of a dated document, unless its date is before [cited] or
    after [now]. *)
Definition row_in_range (cited now : date) (t0 b : pyval) (d : date)
  : option row :=
  if (date_key d <? date_key cited) || (date_key now <? date_key d) then None
  else Some (Row t0 b (dyear d) (if dmonth d =? 0 then 1 else dmonth d)).

Definition total_count (groups : list (list Z * Z)) : Z :=
  foldr Z.add 0 groups.*2.

Definition titled_rows (df : list (Z * row)) : list (Z * row) :=
  filter (fun lr => is_none (title lr.2) = false) df.

(** The rows of one group, and the count recorded for a key. *)
Definition rows_of_group (by_month : bool) (k : list Z) (df : list (Z * row))
  : list (Z * row) :=
  filter (fun lr => group_key by_month lr.2 = k) df.

Fixpoint group_count (k : list Z) (groups : list (list Z * Z)) : Z :=
  match groups with
  | [] => 0
  | (k', c) :: rest => (if key_eq k k' then c else 0) + group_count k rest
  end.

Definition ascending_keys (groups : list (list Z * Z)) : Prop :=
  StronglySorted (fun a b => key_lt a b = true) groups.*1.

(** A response with two citing records and the filter off. *)
Definition two_docs : list pyval :=
  [mkdoc "First" "2021A" "2021-03-00"; mkdoc "Second" "2019B" "2019-12-00"].

Definition world_two_docs : world :=
  World (serve (lookup_ok "2020-05-00") (ok_docs two_docs)) nov_2026.

(** The transport fails on the publication-date query. *)
Definition world_lookup_down : world :=
  World (serve None (ok_docs scenario_docs)) nov_2026.

(** * Properties *)

(** ** Strings *)

Lemma code_inj x y : code x = code y -> x = y.
Proof.
  unfold code. intros H.
  rewrite <- (ascii_N_embedding x), <- (ascii_N_embedding y). now rewrite H.
Qed.

Lemma str_lt_lex a b : str_lt a b = true <-> lex_lt a b.
Proof.
  revert b. induction a as [|x a IH]; intros [|y b]; simpl.
  - split; [discriminate|].
    intros [p [(c & r & _ & Hb)|(x & y & ra & rb & Ha & _)]];
      destruct p; discriminate.
  - split; [|reflexivity]. intros _. exists EmptyString. left. now exists y, b.
  - split; [discriminate|].
    intros [p [(c & r & _ & Hb)|(x' & y & ra & rb & _ & Hb & _)]];
      destruct p; discriminate.
  - destruct (N.ltb_spec (code x) (code y)) as [Hlt|Hge].
    + split; [|reflexivity]. intros _. exists EmptyString. right.
      now exists x, y, a, b.
    + destruct (N.eqb_spec (code x) (code y)) as [Heq|Hne].
      * apply code_inj in Heq as <-. rewrite IH. split.
        -- intros [p [(c & r & -> & ->)|(x' & y' & ra & rb & -> & -> & Hc)]];
             exists (String x p); [left|right]; simpl; eauto 10.
        -- intros [p [(c & r & Ha & Hb)|(x' & y' & ra & rb & Ha & Hb & Hc)]].
           ++ destruct p as [|z p]; simpl in *; [discriminate|].
              injection Ha as _ ->. injection Hb as _ ->.
              exists p. left. eauto.
           ++ destruct p as [|z p]; simpl in *.
              ** injection Ha as -> _. injection Hb as -> _. lia.
              ** injection Ha as _ ->. injection Hb as _ ->.
                 exists p. right. eauto 10.
      * split; [discriminate|].
        intros [p [(c & r & Ha & Hb)|(x' & y' & ra & rb & Ha & Hb & Hc)]].
        -- destruct p as [|z p]; simpl in *; [discriminate|].
           injection Ha as -> _. injection Hb as -> _. congruence.
        -- destruct p as [|z p]; simpl in *.
           ++ injection Ha as -> _. injection Hb as -> _. lia.
           ++ injection Ha as -> _. injection Hb as -> _. congruence.
Qed.

Lemma str_lt_irrefl a : str_lt a a = false.
Proof.
  induction a as [|x a IH]; simpl; [reflexivity|].
  rewrite N.ltb_irrefl, N.eqb_refl. exact IH.
Qed.

Lemma lex_lt_irrefl a : ~ lex_lt a a.
Proof. rewrite <- str_lt_lex, str_lt_irrefl. discriminate. Qed.

(** No piece of a split holds the separator. *)
Lemma split_on_no_sep sep s :
  Forall (fun p => has_char sep p = false) (split_on sep s).
Proof.
  induction s as [|c s IH]; simpl.
  - repeat constructor.
  - destruct (Ascii.eqb c sep) eqn:E.
    + constructor; [reflexivity|exact IH].
    + destruct (split_on sep s) as [|p ps].
      * repeat constructor. simpl. now rewrite E.
      * inversion IH; subst. constructor; [|assumption].
        simpl. now rewrite E.
Qed.

Lemma has_char_lstrip c s : has_char c s = false -> has_char c (lstrip s) = false.
Proof.
  induction s as [|x s IH]; simpl; [easy|].
  intros H. apply orb_false_elim in H as [H1 H2].
  destruct (is_space x); [auto|]. simpl. now rewrite H1, H2.
Qed.

Lemma has_char_rstrip c s : has_char c s = false -> has_char c (rstrip s) = false.
Proof.
  induction s as [|x s IH]; simpl; [easy|].
  intros H. apply orb_false_elim in H as [H1 H2]. specialize (IH H2).
  destruct (rstrip s) as [|y r].
  - destruct (is_space x); simpl; [reflexivity|]. now rewrite H1.
  - simpl in *. now rewrite H1, IH.
Qed.

Lemma digit_val_range c d : digit_val c = Some d -> 0 <= d <= 9.
Proof.
  unfold digit_val. intros H.
  destruct (_ && _) eqn:E; [|discriminate]. injection H as <-. lia.
Qed.

Lemma digits_from_nonneg st acc s n :
  digits_from st acc s = Some n -> 0 <= acc -> 0 <= n.
Proof.
  revert st acc. induction s as [|c s IH]; simpl; intros st acc H Hacc.
  - destruct st; congruence.
  - destruct (digit_val c) as [d|] eqn:Ed.
    + apply digit_val_range in Ed. eapply IH; [exact H|lia].
    + destruct (Ascii.eqb c "_"); [|discriminate].
      destruct st; try discriminate. eapply IH; eauto.
Qed.

(** [int] of a text without a minus sign is not negative. *)
Lemma py_int_numeral s n :
  py_int s = Ok n -> numeral (rstrip (lstrip s)) = Some n.
Proof.
  unfold py_int. destruct (numeral _) as [m|]; [|discriminate].
  destruct (_ <? _); [discriminate|]. now intros [= ->].
Qed.


Lemma py_int_nonneg s n :
  py_int s = Ok n -> has_char "-" s = false -> 0 <= n.
Proof.
  intros H Hs. apply py_int_numeral in H.
  pose proof (has_char_rstrip _ _ (has_char_lstrip _ _ Hs)) as Hb.
  destruct (rstrip (lstrip s)) as [|c r] eqn:Eb.
  - simpl in H. discriminate.
  - destruct (Ascii.eqb c "-") eqn:Ec.
    { simpl in Hb. now rewrite Ec in Hb. }
    destruct (Ascii.eqb c "+") eqn:Ep.
    + apply Ascii.eqb_eq in Ep as ->. cbn [numeral] in H.
      eapply digits_from_nonneg; [exact H|lia].
    + assert (Hgen : digits_from AtStart 0 (String c r) = Some n).
      { destruct c as [[] [] [] [] [] [] [] []]; try exact H; discriminate. }
      eapply digits_from_nonneg; [exact Hgen|lia].
Qed.

(** ** The frame and the loop *)

Lemma loc_set_fresh lbl r (df : dataframe) :
  lbl ∉ df.*1 -> loc_set lbl r df = df ++ [(lbl, r)].
Proof.
  induction df as [|[l x] df IH]; simpl; intros Hfresh; [reflexivity|].
  apply not_elem_of_cons in Hfresh as [Hne Hrest].
  destruct (Z.eqb_spec l lbl) as [->|_]; [congruence|].
  now rewrite IH.
Qed.

Lemma loc_set_append r (df : dataframe) :
  well_labelled df ->
  loc_set (df_len df) r df = df ++ [(df_len df, r)] /\
  well_labelled (df ++ [(df_len df, r)]).
Proof.
  unfold well_labelled, df_len. intros Hdf. split.
  - apply loc_set_fresh. rewrite Hdf, elem_of_seqZ. lia.
  - rewrite fmap_app, length_app, Hdf. simpl.
    replace (length df + 1)%nat with (S (length df)) by lia.
    now rewrite seqZ_S.
Qed.

(** The loop visits the documents in order; each either raises, is
    skipped, or contributes one row at the end of the frame. *)
Lemma for_papers_spec ctx docs : forall papers df,
  for_papers ctx docs papers = Ok df ->
  well_labelled papers ->
  exists outs : list (option row),
    Forall2 (fun d o => process_paper ctx d = Ok o) docs outs /\
    df.*2 = papers.*2 ++ omap id outs /\
    well_labelled df.
Proof.
  induction docs as [|d docs IH]; simpl; intros papers df Hrun Hwl.
  - injection Hrun as <-. exists []. simpl. rewrite app_nil_r. auto.
  - unfold loop_body in Hrun.
    destruct (process_paper ctx d) as [[r|]|e] eqn:Ed; simpl in Hrun;
      try discriminate.
    + destruct (loc_set_append r papers Hwl) as [Heq Hwl'].
      rewrite Heq in Hrun.
      destruct (IH _ _ Hrun Hwl') as (outs & Hall & Hrows & Hdf).
      exists (Some r :: outs). split; [constructor; assumption|].
      split; [|assumption].
      rewrite Hrows, fmap_app. simpl. now rewrite <- app_assoc.
    + destruct (IH _ _ Hrun Hwl) as (outs & Hall & Hrows & Hdf).
      exists (None :: outs). split; [constructor; assumption|]. auto.
Qed.

Lemma well_labelled_nil : well_labelled [].
Proof. reflexivity. Qed.

(** ** Unfolding the three functions *)

Lemma lookup_trace bib tok w t :
  snd (get_ads_paper_pubdate bib tok w t) = t ++ [Get (pubdate_request bib tok)].
Proof.
  unfold get_ads_paper_pubdate, bind, requests_get, lift, ret.
  destruct (http_get w _) as [resp|]; [|reflexivity].
  destruct (status_code resp =? 200); [|reflexivity].
  destruct (response_json resp); [|reflexivity].
  destruct (first_doc _); [|reflexivity].
  destruct (py_contains _ _) as [[]|]; reflexivity.
Qed.

Lemma citing_query_frame bib tok ctx w t df t' :
  citing_query bib tok ctx w t = (Ok (Frame df), t') ->
  exists resp docs,
    http_get w (citing_request bib tok) = Some resp /\
    status_code resp = 200 /\
    response_docs resp = Ok docs /\
    for_papers ctx docs [] = Ok df /\
    t' = t ++ [Get (citing_request bib tok)].
Proof.
  unfold citing_query, bind, requests_get, lift, ret, print, emit.
  destruct (http_get w _) as [resp|]; [|discriminate].
  destruct (Z.eqb_spec (status_code resp) 200) as [Hs|_]; [|discriminate].
  destruct (response_docs resp) as [docs|] eqn:Hdocs; [|discriminate].
  destruct (for_papers ctx docs []) as [df'|] eqn:Hloop; [|discriminate].
  intros [= <- <-]. exists resp, docs. auto 10.
Qed.

Lemma fetch_frame bib tok rf w t df t' :
  get_ads_citing_papers bib tok rf w t = (Ok (Frame df), t') ->
  exists cited resp docs,
    (rf = true ->
       get_ads_paper_pubdate bib tok w t
         = (Ok cited, t ++ [Get (pubdate_request bib tok)]) /\
       is_none cited = false) /\
    http_get w (citing_request bib tok) = Some resp /\
    status_code resp = 200 /\
    response_docs resp = Ok docs /\
    for_papers (fetch_ctx rf w cited) docs [] = Ok df.
Proof.
  unfold get_ads_citing_papers. destruct rf.
  - unfold bind at 1. unfold today_strftime. unfold bind at 1.
    pose proof (lookup_trace bib tok w t) as Ht.
    destruct (get_ads_paper_pubdate bib tok w t) as [[cited|e] t1]; simpl in Ht;
      [|discriminate].
    subst t1. destruct (is_none cited) eqn:Hn.
    + unfold bind, print, emit, ret. discriminate.
    + intros H. apply citing_query_frame in H as (resp & docs & ? & ? & ? & ? & _).
      exists cited, resp, docs. simpl. auto 10.
  - intros H. apply citing_query_frame in H as (resp & docs & ? & ? & ? & ? & _).
    exists PNone, resp, docs. simpl. split; [discriminate|]. auto 10.
Qed.

(** ** One document *)

Lemma process_paper_ok ctx d o :
  process_paper ctx d = Ok o ->
  exists titles t0 b pubdate skip,
    getitem_str d "title" = Ok titles /\
    getitem_int titles 0 = Ok t0 /\
    getitem_str d "bibcode" = Ok b /\
    py_get d "pubdate" (PStr "Unknown") = Ok pubdate /\
    should_skip ctx pubdate = Ok skip /\
    if skip : bool then o = None
    else exists y m, parse_pubdate pubdate = Ok (y, m) /\ o = Some (Row t0 b y m).
Proof.
  unfold process_paper.
  destruct (getitem_str d "title") as [titles|] eqn:E1; cbn [obind]; [|intros [=]].
  destruct (getitem_int titles 0) as [t0|] eqn:E2; cbn [obind]; [|intros [=]].
  destruct (getitem_str d "bibcode") as [b|] eqn:E3; cbn [obind]; [|intros [=]].
  destruct (py_get d "pubdate" _) as [pubdate|] eqn:E4; cbn [obind]; [|intros [=]].
  destruct (should_skip ctx pubdate) as [skip|] eqn:E5; cbn [obind]; [|intros [=]].
  intros H. exists titles, t0, b, pubdate, skip.
  do 5 (split; [first [reflexivity|assumption]|]).
  destruct skip.
  - now injection H as <-.
  - destruct (parse_pubdate pubdate) as [[y m]|] eqn:E6; [|discriminate H].
    cbn [obind fst snd] in H. injection H as <-. exists y, m. split; first [assumption|reflexivity].
Qed.

(** Between two strings the filter test is the two string comparisons. *)
Lemma out_of_range_str c p now :
  out_of_range (PStr c) (PStr p) now = Ok (str_lt p c || str_lt now p).
Proof.
  unfold out_of_range, py_gt. simpl. now destruct (str_lt p c).
Qed.

Lemma parse_pubdate_ok pubdate y m :
  parse_pubdate pubdate = Ok (y, m) <->
  exists p ys ms ds m0,
    pubdate = PStr p /\
    split_on "-" p = [ys; ms; ds] /\
    py_int ys = Ok y /\
    py_int ms = Ok m0 /\
    m = (if m0 =? 0 then 1 else m0).
Proof.
  unfold parse_pubdate, py_split. split.
  - destruct pubdate as [| | |p| |]; try discriminate. simpl.
    destruct (split_on "-" p) as [|ys [|ms [|ds [|]]]] eqn:Es; try discriminate.
    destruct (py_int ys) as [y'|] eqn:Ey; [|discriminate].
    destruct (py_int ms) as [m'|] eqn:Em; [|discriminate].
    simpl. intros [= <- <-]. exists p, ys, ms, ds, m'. auto.
  - intros (p & ys & ms & ds & m0 & -> & Hs & Hy & Hm & ->).
    simpl. rewrite Hs, Hy, Hm. reflexivity.
Qed.

(** A date text starts with a decimal digit, which sorts before [U]. *)
Lemma digit_char_code n : (48 <= code (digit_char n) <= 57)%N.
Proof.
  unfold code, digit_char.
  pose proof (Z.mod_pos_bound n 10 ltac:(lia)) as Hb.
  rewrite N_ascii_embedding; lia.
Qed.

Lemma now_before_Unknown dt : str_lt (strftime_Ymd dt) "Unknown" = true.
Proof.
  unfold strftime_Ymd. cbn [str_lt].
  pose proof (digit_char_code (dyear dt / 1000)) as Hd.
  change (code "U") with 85%N.
  destruct (N.ltb_spec (code (digit_char (dyear dt / 1000))) 85); [reflexivity|lia].
Qed.

Lemma Unknown_out_of_range cited dt skip :
  out_of_range cited (PStr "Unknown") (strftime_Ymd dt) = Ok skip -> skip = true.
Proof.
  unfold out_of_range, py_gt. destruct (is_none cited); [congruence|].
  destruct (py_lt (PStr "Unknown") cited) as [[]|]; cbn [obind]; try congruence.
  cbn [py_lt]. rewrite now_before_Unknown. congruence.
Qed.

(** A document that raises makes the whole loop raise. *)
Lemma for_papers_raises ctx docs d e : forall papers,
  d ∈ docs -> process_paper ctx d = Raise e ->
  exists e', for_papers ctx docs papers = Raise e'.
Proof.
  induction docs as [|x docs IH]; intros papers Hin Hd.
  - inversion Hin.
  - simpl. unfold loop_body.
    destruct (process_paper ctx x) as [[r|]|ex] eqn:Ex; simpl.
    + apply elem_of_cons in Hin as [->|Hin]; [congruence|]. now apply IH.
    + apply elem_of_cons in Hin as [->|Hin]; [congruence|]. now apply IH.
    + eauto.
Qed.

(** ** The table of a successful fetch *)

(** A fetch that returns a frame ran the loop over the documents of the
    citing-papers response: every document was processed without raising,
    and the rows are the results of the documents not skipped, in order. *)
Lemma fetch_rows bib tok rf w t df t' resp docs :
  get_ads_citing_papers bib tok rf w t = (Ok (Frame df), t') ->
  http_get w (citing_request bib tok) = Some resp ->
  response_docs resp = Ok docs ->
  exists cited outs,
    (rf = true ->
       get_ads_paper_pubdate bib tok w t
         = (Ok cited, t ++ [Get (pubdate_request bib tok)]) /\
       is_none cited = false) /\
    Forall2 (fun d o => process_paper (fetch_ctx rf w cited) d = Ok o) docs outs /\
    df.*2 = omap id outs /\
    well_labelled df.
Proof.
  intros Hrun Hresp Hdocs.
  apply fetch_frame in Hrun as (cited & resp' & docs' & Hlook & Hr & _ & Hd & Hloop).
  rewrite Hresp in Hr. injection Hr as <-.
  rewrite Hdocs in Hd. injection Hd as <-.
  apply for_papers_spec in Hloop as (outs & Hall & Hrows & Hwl);
    [|exact well_labelled_nil].
  exists cited, outs. auto.
Qed.

Lemma docs_all_ok ctx docs (outs : list (option row)) d :
  Forall2 (fun d o => process_paper ctx d = Ok o) docs outs ->
  d ∈ docs -> exists o, process_paper ctx d = Ok o.
Proof.
  intros Hall Hin. apply list_elem_of_lookup in Hin as [i Hi].
  destruct (Forall2_lookup_l _ _ _ _ _ Hall Hi) as (o & _ & Ho). eauto.
Qed.

Lemma rows_have_source ctx docs (outs : list (option row)) r :
  Forall2 (fun d o => process_paper ctx d = Ok o) docs outs ->
  r ∈ omap id outs ->
  exists d, d ∈ docs /\ process_paper ctx d = Ok (Some r).
Proof.
  intros Hall Hin. apply list_elem_of_omap in Hin as (o & Ho & Hid).
  simpl in Hid. subst o. apply list_elem_of_lookup in Ho as [i Hi].
  destruct (Forall2_lookup_r _ _ _ _ _ Hall Hi) as (d & Hd & Hp).
  exists d. split; [|assumption]. apply list_elem_of_lookup. eauto.
Qed.

(** ** C1: the range filter *)

(** C1, as stated, fails: the cited paper is dated after the current
    date, a citing document carries exactly the cited paper's pubdate,
    and the filter discards it (it is later than the current date). *)
Lemma C1_counterexample :
  fst (get_ads_paper_pubdate "X" "tok" world_future_cited [])
    = Ok (PStr "2030-01-00") /\
  http_get world_future_cited (citing_request "X" "tok")
    = ok_docs [mkdoc "T" "B" "2030-01-00"] /\
  py_get (mkdoc "T" "B" "2030-01-00") "pubdate" (PStr "Unknown")
    = Ok (PStr "2030-01-00") /\
  process_paper (Some (strftime_Ymd (today world_future_cited), PStr "2030-01-00"))
    (mkdoc "T" "B" "2030-01-00") = Ok None /\
  fst (get_ads_citing_papers "X" "tok" true world_future_cited [])
    = Ok (Frame []).
Proof. vm_compute. repeat split. Qed.

(** C1 (amended): with removeFalse=true and a retrieved string
    citedPubdate, the returned rows are the results of the documents the
    filter did not discard, and a document with pubdate string [p] is
    discarded if and only if [p] is lexicographically strictly earlier
    than citedPubdate or strictly later than the current date string; a
    document whose pubdate equals citedPubdate is retained whenever
    citedPubdate is not later than the current date string. *)
Theorem C1_range_filter bib tok w t c t1 resp docs df t' :
  get_ads_paper_pubdate bib tok w t = (Ok (PStr c), t1) ->
  http_get w (citing_request bib tok) = Some resp ->
  response_docs resp = Ok docs ->
  get_ads_citing_papers bib tok true w t = (Ok (Frame df), t') ->
  let now := strftime_Ymd (today w) in
  let ctx := Some (now, PStr c) in
  (exists outs,
      Forall2 (fun d o => process_paper ctx d = Ok o) docs outs /\
      df.*2 = omap id outs) /\
  (forall d p,
      d ∈ docs ->
      py_get d "pubdate" (PStr "Unknown") = Ok (PStr p) ->
      (process_paper ctx d = Ok None <-> lex_lt p c \/ lex_lt now p) /\
      (p = c -> ~ lex_lt now c -> exists r, process_paper ctx d = Ok (Some r))).
Proof.
  intros Hlook Hresp Hdocs Hrun now ctx.
  destruct (fetch_rows _ _ _ _ _ _ _ _ _ Hrun Hresp Hdocs)
    as (cited & outs & Hc & Hall & Hrows & _).
  destruct (Hc eq_refl) as [Hlook' _]. rewrite Hlook in Hlook'.
  injection Hlook' as <- _. change (fetch_ctx true w (PStr c)) with ctx in Hall.
  split; [eauto|].
  intros d p Hin Hp.
  destruct (docs_all_ok _ _ _ _ Hall Hin) as [o Ho].
  destruct (process_paper_ok _ _ _ Ho)
    as (titles & t0 & b & pubdate & skip & _ & _ & _ & Hp' & Hskip & Hout).
  rewrite Hp in Hp'. injection Hp' as <-.
  subst ctx. cbn [should_skip] in Hskip. rewrite out_of_range_str in Hskip.
  assert (Hs : str_lt p c || str_lt now p = skip) by congruence.
  clear Hskip. rewrite Ho.
  assert (Hiff : skip = true <-> lex_lt p c \/ lex_lt now p).
  { rewrite <- Hs, orb_true_iff, !str_lt_lex. reflexivity. }
  destruct skip.
  - subst o. split.
    + split; [intros _; now apply Hiff|reflexivity].
    + intros -> Hnow. destruct (proj1 Hiff eq_refl) as [Hor|Hor];
        [now apply lex_lt_irrefl in Hor|contradiction].
  - destruct Hout as (y & m & _ & ->). split.
    + split; [discriminate|]. intros Hor. apply Hiff in Hor. discriminate.
    + eauto.
Qed.

(** The spec scenario run through [C1_range_filter]: cited pubdate
    2020-05-00, current date 2026-11-03. *)
Lemma C1_range_filter_witness :
  (exists outs,
      Forall2 (fun d o =>
                 process_paper (Some ("2026-11-03", PStr "2020-05-00")) d = Ok o)
              scenario_docs outs /\
      [Row (PStr "Later") (PStr "2021B") 2021 3;
       Row (PStr "No month") (PStr "2022C") 2022 1;
       Row (PStr "Same issue") (PStr "2020D") 2020 5] = omap id outs) /\
  (forall d p,
      d ∈ scenario_docs ->
      py_get d "pubdate" (PStr "Unknown") = Ok (PStr p) ->
      (process_paper (Some ("2026-11-03", PStr "2020-05-00")) d = Ok None
       <-> lex_lt p "2020-05-00" \/ lex_lt "2026-11-03" p) /\
      (p = "2020-05-00" -> ~ lex_lt "2026-11-03" "2020-05-00" ->
       exists r, process_paper (Some ("2026-11-03", PStr "2020-05-00")) d
                 = Ok (Some r))).
Proof.
  exact (C1_range_filter "2020ApJ...900..100X" "token" world_scenario []
           "2020-05-00" _ _ scenario_docs _ _
           eq_refl eq_refl eq_refl eq_refl).
Defined.

(** ** C2: no reference date, no citing-papers query *)

Lemma requests_differ bib tok : citing_request bib tok <> pubdate_request bib tok.
Proof. unfold citing_request, pubdate_request. intros [=]. Qed.

(** C2: with removeFalse=true, when the publication-date lookup returns
    no date the fetch returns the empty result, prints one console line,
    raises nothing, and the only request issued is the lookup's: the
    citing-papers query is never sent. *)
Theorem C2_no_date_aborts bib tok w t t1 :
  get_ads_paper_pubdate bib tok w t = (Ok PNone, t1) ->
  let issued :=
    [Get (pubdate_request bib tok);
     Print [PStr "Unable to retrieve publication date of the cited paper."]] in
  get_ads_citing_papers bib tok true w t = (Ok EmptyList, t ++ issued) /\
  Get (citing_request bib tok) ∉ issued.
Proof.
  intros Hlook issued. split.
  - pose proof (lookup_trace bib tok w t) as Ht. rewrite Hlook in Ht.
    simpl in Ht. subst t1.
    unfold get_ads_citing_papers, bind, today_strftime. rewrite Hlook.
    unfold print, emit, ret. cbn [is_none]. now rewrite <- app_assoc.
  - subst issued. intros Hin.
    apply elem_of_cons in Hin as [Heq|Hin].
    + apply (requests_differ bib tok). congruence.
    + apply elem_of_cons in Hin as [Heq|Hin]; [discriminate|inversion Hin].
Qed.

(** The lookup is answered with status 404. *)
Lemma C2_no_date_aborts_witness :
  get_ads_citing_papers "2020ApJ...900..100X" "token" true world_lookup_404 []
  = (Ok EmptyList,
     [] ++ [Get (pubdate_request "2020ApJ...900..100X" "token");
            Print [PStr "Unable to retrieve publication date of the cited paper."]]) /\
  Get (citing_request "2020ApJ...900..100X" "token")
    ∉ [Get (pubdate_request "2020ApJ...900..100X" "token");
       Print [PStr "Unable to retrieve publication date of the cited paper."]].
Proof.
  exact (C2_no_date_aborts "2020ApJ...900..100X" "token" world_lookup_404 [] _
           eq_refl).
Defined.

(** ** C3: the month column *)

(** C3, as stated, fails: a source pubdate with month component 13 gives
    a returned row whose month is 13. *)
Lemma C3_counterexample :
  fst (get_ads_citing_papers "2020ApJ...900..100X" "token" true world_month_13 [])
    = Ok (Frame [(0, Row (PStr "T") (PStr "B") 2021 13)]) /\
  ~ (1 <= month (Row (PStr "T") (PStr "B") 2021 13) <= 12).
Proof. split; [vm_compute; reflexivity|]. simpl. lia. Qed.

(** C3 (amended): every row of a returned table has an integer month of
    at least 1; it is the integer value [m] of the month component of the
    source document's pubdate, with 0 replaced by 1, so it is at most 12
    exactly when that component is. *)
Theorem C3_month_at_least_one bib tok rf w t df t' resp docs :
  get_ads_citing_papers bib tok rf w t = (Ok (Frame df), t') ->
  http_get w (citing_request bib tok) = Some resp ->
  response_docs resp = Ok docs ->
  forall lr, lr ∈ df ->
    1 <= month lr.2 /\
    exists d p ys ms ds m,
      d ∈ docs /\
      py_get d "pubdate" (PStr "Unknown") = Ok (PStr p) /\
      split_on "-" p = [ys; ms; ds] /\
      py_int ms = Ok m /\
      0 <= m /\
      month lr.2 = (if m =? 0 then 1 else m) /\
      (month lr.2 <= 12 <-> m <= 12).
Proof.
  intros Hrun Hresp Hdocs lr Hin.
  destruct (fetch_rows _ _ _ _ _ _ _ _ _ Hrun Hresp Hdocs)
    as (cited & outs & _ & Hall & Hrows & _).
  assert (Hr : lr.2 ∈ omap id outs).
  { rewrite <- Hrows. apply list_elem_of_fmap. eauto. }
  destruct (rows_have_source _ _ _ _ Hall Hr) as (d & Hd & Hp).
  destruct (process_paper_ok _ _ _ Hp)
    as (titles & t0 & b & pubdate & skip & _ & _ & _ & Hget & _ & Hout).
  destruct skip; [discriminate|].
  destruct Hout as (y & m & Hparse & [= ->]).
  apply parse_pubdate_ok in Hparse as (p & ys & ms & ds & m0 & -> & Hs & _ & Hm & ->).
  assert (Hm0 : 0 <= m0).
  { apply (py_int_nonneg ms); [assumption|].
    pose proof (split_on_no_sep "-" p) as Hno. rewrite Hs in Hno.
    inversion Hno as [|? ? _ Hno1]; subst. now inversion Hno1. }
  cbn [month snd]. split.
  - destruct (Z.eqb_spec m0 0); lia.
  - exists d, p, ys, ms, ds, m0. do 6 (split; [first [assumption|reflexivity]|]).
    destruct (Z.eqb_spec m0 0); lia.
Qed.

(** The spec scenario: the third record, dated 2022-00-00, comes back as
    the row labelled 1 with month 1. *)
Lemma C3_month_at_least_one_witness :
  1 <= month (1, Row (PStr "No month") (PStr "2022C") 2022 1).2 /\
  exists d p ys ms ds m,
    d ∈ scenario_docs /\
    py_get d "pubdate" (PStr "Unknown") = Ok (PStr p) /\
    split_on "-" p = [ys; ms; ds] /\
    py_int ms = Ok m /\
    0 <= m /\
    month (1, Row (PStr "No month") (PStr "2022C") 2022 1).2
      = (if m =? 0 then 1 else m) /\
    (month (1, Row (PStr "No month") (PStr "2022C") 2022 1).2 <= 12 <-> m <= 12).
Proof.
  apply (C3_month_at_least_one "2020ApJ...900..100X" "token" true world_scenario
           [] _ _ _ scenario_docs eq_refl eq_refl eq_refl).
  apply list_elem_of_lookup. exists 1%nat. reflexivity.
Defined.

(** ** C4: the lookup on a response without a usable document *)

(** A first document that is an object without a [pubdate] key gives
    [None], as the docstring promises. *)
Lemma lookup_missing_field bib tok w t resp data fields :
  http_get w (pubdate_request bib tok) = Some resp ->
  status_code resp = 200 ->
  body resp = Some data ->
  first_doc data = Ok (PDict fields) ->
  assoc "pubdate" fields = None ->
  get_ads_paper_pubdate bib tok w t
  = (Ok PNone, t ++ [Get (pubdate_request bib tok)]).
Proof.
  intros Hresp Hs Hb Hdoc Hnone.
  unfold get_ads_paper_pubdate, bind, requests_get, lift, ret, response_json.
  rewrite Hresp, Hs, Hb. cbn [Z.eqb Pos.eqb]. rewrite Hdoc.
  cbn [py_contains]. rewrite Hnone. reflexivity.
Qed.

(** A query that matched nothing has an empty [docs] list, and indexing
    its first element raises. *)
Lemma lookup_no_match bib tok w t resp data r :
  http_get w (pubdate_request bib tok) = Some resp ->
  status_code resp = 200 ->
  body resp = Some data ->
  getitem_str data "response" = Ok r ->
  getitem_str r "docs" = Ok (PList []) ->
  get_ads_paper_pubdate bib tok w t
  = (Raise IndexError, t ++ [Get (pubdate_request bib tok)]).
Proof.
  intros Hresp Hs Hb Hr Hdocs.
  unfold get_ads_paper_pubdate, bind, requests_get, lift, ret, response_json.
  rewrite Hresp, Hs, Hb. cbn [Z.eqb Pos.eqb].
  unfold first_doc. rewrite Hr. cbn [obind]. rewrite Hdocs. reflexivity.
Qed.

(** C4: on the HTTP 200 answer of a query that matched no document,
    [{"response": {"docs": []}}] in JSON, the lookup raises [IndexError]
    where its docstring and the claim have it return [None]. *)
Theorem C4_no_match_raises :
  body (Response 200 (Some (docs_body []))) = Some (docs_body []) /\
  get_ads_paper_pubdate "2020ApJ...900..100X" "token" world_no_match []
  = (Raise IndexError, [Get (pubdate_request "2020ApJ...900..100X" "token")]).
Proof.
  split; [reflexivity|].
  exact (lookup_no_match "2020ApJ...900..100X" "token" world_no_match [] _ _ _
           eq_refl eq_refl eq_refl eq_refl eq_refl).
Qed.

(** ** C5: a failed citing-papers query *)

(** C5: when the citing-papers query is reached (no filter, or the lookup
    gave a date) and answered with a status other than 200, the fetch
    returns the empty result and prints [Error: <status>]; it does not
    raise. *)
Theorem C5_citing_failure bib tok rf w t resp :
  http_get w (citing_request bib tok) = Some resp ->
  status_code resp <> 200 ->
  (rf = true ->
   exists cited,
     fst (get_ads_paper_pubdate bib tok w t) = Ok cited /\ is_none cited = false) ->
  get_ads_citing_papers bib tok rf w t
  = (Ok EmptyList,
     t ++ (if rf then [Get (pubdate_request bib tok)] else [])
       ++ [Get (citing_request bib tok);
           Print [PStr "Error:"; PInt (status_code resp)]]).
Proof.
  intros Hresp Hs Hlook.
  assert (Hq : forall ctx t0,
             citing_query bib tok ctx w t0
             = (Ok EmptyList,
                t0 ++ [Get (citing_request bib tok);
                       Print [PStr "Error:"; PInt (status_code resp)]])).
  { intros ctx t0. unfold citing_query, bind, requests_get, print, emit, ret.
    rewrite Hresp. destruct (Z.eqb_spec (status_code resp) 200); [contradiction|].
    now rewrite <- app_assoc. }
  unfold get_ads_citing_papers. destruct rf.
  - destruct (Hlook eq_refl) as (cited & Hc & Hn).
    pose proof (lookup_trace bib tok w t) as Ht.
    unfold bind at 1. unfold today_strftime. unfold bind at 1.
    destruct (get_ads_paper_pubdate bib tok w t) as [o t1].
    simpl in Hc, Ht. subst o t1. rewrite Hn, Hq. now rewrite <- app_assoc.
  - rewrite Hq. reflexivity.
Qed.

(** The spec scenario: status 404 on the citing-papers query. *)
Lemma C5_citing_failure_witness :
  get_ads_citing_papers "2020ApJ...900..100X" "token" true world_citing_404 []
  = (Ok EmptyList,
     [] ++ [Get (pubdate_request "2020ApJ...900..100X" "token")]
        ++ [Get (citing_request "2020ApJ...900..100X" "token");
            Print [PStr "Error:"; PInt 404]]).
Proof.
  refine (C5_citing_failure "2020ApJ...900..100X" "token" true world_citing_404 []
            (Response 404 None) eq_refl _ _).
  - discriminate.
  - intros _. exists (PStr "2020-05-00"). split; reflexivity.
Defined.

(** ** C7: plotting after a failed fetch *)

(** Whenever the fetch hands back its empty list, the plotter raises on
    the [groupby] attribute and draws nothing. *)
Lemma plot_on_empty_list bib tok resolution w t t1 :
  get_ads_citing_papers bib tok true w t = (Ok EmptyList, t1) ->
  plot_ADS_num_citations_by_time bib tok resolution w t
  = (Raise AttributeError, t1).
Proof.
  intros Hrun. unfold plot_ADS_num_citations_by_time, bind at 1.
  rewrite Hrun. reflexivity.
Qed.

(** A frame without rows has no groups: zero bars. *)
Lemma empty_frame_zero_bars by_month :
  groupby_title_count (Frame []) by_month = Ok [].
Proof. reflexivity. Qed.

(** C7: after a citing-papers query answered with status 404 the fetch
    returns its empty list and the plotter raises [AttributeError] at the
    grouping step, where the claim has it produce zero bars. *)
Theorem C7_plot_after_failed_fetch :
  fst (get_ads_citing_papers "2020ApJ...900..100X" "token" true world_citing_404 [])
    = Ok EmptyList /\
  plot_ADS_num_citations_by_time "2020ApJ...900..100X" "token" "month"
    world_citing_404 []
  = (Raise AttributeError,
     [Get (pubdate_request "2020ApJ...900..100X" "token");
      Get (citing_request "2020ApJ...900..100X" "token");
      Print [PStr "Error:"; PInt 404]]).
Proof.
  split; [reflexivity|].
  exact (plot_on_empty_list "2020ApJ...900..100X" "token" "month"
           world_citing_404 [] _ eq_refl).
Qed.

(** ** C6: absent fields *)

(** Once the filter context is settled the fetch is its second half. *)
Lemma fetch_reaches_query bib tok rf w t cited :
  (rf = true ->
   fst (get_ads_paper_pubdate bib tok w t) = Ok cited /\ is_none cited = false) ->
  get_ads_citing_papers bib tok rf w t
  = citing_query bib tok (fetch_ctx rf w cited) w
      (t ++ (if rf then [Get (pubdate_request bib tok)] else [])).
Proof.
  intros Hlook. unfold get_ads_citing_papers. destruct rf.
  - destruct (Hlook eq_refl) as [Hc Hn].
    pose proof (lookup_trace bib tok w t) as Ht.
    unfold bind at 1. unfold today_strftime. unfold bind at 1.
    destruct (get_ads_paper_pubdate bib tok w t) as [o t1].
    simpl in Hc, Ht. subst o t1. now rewrite Hn.
  - simpl. now rewrite app_nil_r.
Qed.

Lemma citing_query_raises bib tok ctx w t resp docs d e :
  http_get w (citing_request bib tok) = Some resp ->
  status_code resp = 200 ->
  response_docs resp = Ok docs ->
  d ∈ docs ->
  process_paper ctx d = Raise e ->
  exists e', fst (citing_query bib tok ctx w t) = Raise e'.
Proof.
  intros Hresp Hs Hdocs Hin Hd.
  destruct (for_papers_raises ctx docs d e [] Hin Hd) as [e' He'].
  exists e'. unfold citing_query, bind, requests_get, lift.
  rewrite Hresp, Hs, Hdocs, He'. reflexivity.
Qed.

(** C6, as stated, fails: a citing document without a [title] field
    makes the fetch raise [KeyError]. *)
Lemma C6_counterexample :
  http_get world_no_title (citing_request "2020ApJ...900..100X" "token")
    = ok_docs [PDict [("bibcode", PStr "B"); ("pubdate", PStr "2021-03-00")]] /\
  fst (get_ads_citing_papers "2020ApJ...900..100X" "token" true world_no_title [])
    = Raise KeyError.
Proof. vm_compute. split; reflexivity. Qed.

(** C6 (amended): for a document (a JSON object) of the citing-papers
    response, an absent pubdate is defaulted to the sentinel "Unknown"
    and, under the filter with a string cited pubdate, the document is
    then skipped without raising; the title is the first element of the
    title value; an absent title or bibcode is not defaulted: the
    document raises [KeyError], and so does the fetch that meets it. *)
Theorem C6_missing_fields (fields : list (string * pyval)) :
  let paper := PDict fields in
  py_get paper "pubdate" (PStr "Unknown")
    = Ok (default (PStr "Unknown") (assoc "pubdate" fields)) /\
  (forall ctx titles r,
      assoc "title" fields = Some titles ->
      process_paper ctx paper = Ok (Some r) ->
      getitem_int titles 0 = Ok (title r)) /\
  (forall titles t0 b dt c,
      assoc "title" fields = Some titles ->
      getitem_int titles 0 = Ok t0 ->
      assoc "bibcode" fields = Some b ->
      assoc "pubdate" fields = None ->
      process_paper (Some (strftime_Ymd dt, PStr c)) paper = Ok None) /\
  (forall ctx,
      assoc "title" fields = None ->
      process_paper ctx paper = Raise KeyError) /\
  (forall ctx titles t0,
      assoc "title" fields = Some titles ->
      getitem_int titles 0 = Ok t0 ->
      assoc "bibcode" fields = None ->
      process_paper ctx paper = Raise KeyError) /\
  (forall bib tok rf w t cited resp docs e,
      (rf = true ->
       fst (get_ads_paper_pubdate bib tok w t) = Ok cited /\
       is_none cited = false) ->
      http_get w (citing_request bib tok) = Some resp ->
      status_code resp = 200 ->
      response_docs resp = Ok docs ->
      paper ∈ docs ->
      process_paper (fetch_ctx rf w cited) paper = Raise e ->
      exists e', fst (get_ads_citing_papers bib tok rf w t) = Raise e').
Proof.
  intros paper. subst paper. split; [|split; [|split; [|split; [|split]]]].
  - cbn [py_get]. now destruct (assoc "pubdate" fields).
  - intros ctx titles r Ht Hp.
    destruct (process_paper_ok _ _ _ Hp)
      as (titles' & t0 & b & pubdate & skip & Ht' & Ht0 & _ & _ & _ & Hout).
    cbn [getitem_str] in Ht'. rewrite Ht in Ht'. injection Ht' as <-.
    destruct skip; [discriminate|].
    destruct Hout as (y & m & _ & [= ->]). exact Ht0.
  - intros titles t0 b dt c Ht Ht0 Hb Hp.
    unfold process_paper. cbn [getitem_str py_get].
    rewrite Ht. cbn [obind]. rewrite Ht0, Hb, Hp. cbn [obind should_skip].
    rewrite out_of_range_str, now_before_Unknown, orb_true_r. reflexivity.
  - intros ctx Ht. unfold process_paper. cbn [getitem_str]. now rewrite Ht.
  - intros ctx titles t0 Ht Ht0 Hb. unfold process_paper. cbn [getitem_str].
    rewrite Ht. cbn [obind]. rewrite Ht0, Hb. reflexivity.
  - intros bib tok rf w t cited resp docs e Hlook Hresp Hs Hdocs Hin Hd.
    rewrite (fetch_reaches_query _ _ _ _ _ cited Hlook).
    eapply citing_query_raises; eauto.
Qed.

(** The undated record of the spec scenario is skipped under the filter. *)
Lemma C6_missing_fields_witness :
  process_paper (Some (strftime_Ymd nov_2026, PStr "2020-05-00"))
    (PDict [("title", PList [PStr "Undated"]); ("bibcode", PStr "2023E")])
  = Ok None.
Proof.
  exact (proj1 (proj2 (proj2
           (C6_missing_fields
              [("title", PList [PStr "Undated"]); ("bibcode", PStr "2023E")])))
           (PList [PStr "Undated"]) (PStr "Undated") (PStr "2023E")
           nov_2026 "2020-05-00" eq_refl eq_refl eq_refl eq_refl).
Defined.

(** Without the filter the defaulted sentinel reaches the split, which
    yields one piece where three are unpacked. *)
Lemma unfiltered_missing_pubdate_raises :
  process_paper None
    (PDict [("title", PList [PStr "Undated"]); ("bibcode", PStr "2023E")])
  = Raise ValueError.
Proof. reflexivity. Qed.

(** ** C8: parsing the retained pubdate *)

(** The row of a retained document carries what the parsing step made of
    its pubdate, which is a string. *)
Lemma retained_pubdate_parsed ctx paper r :
  process_paper ctx paper = Ok (Some r) ->
  exists p,
    py_get paper "pubdate" (PStr "Unknown") = Ok (PStr p) /\
    parse_pubdate (PStr p) = Ok (year r, month r).
Proof.
  intros Hp.
  destruct (process_paper_ok _ _ _ Hp)
    as (titles & t0 & b & pubdate & skip & _ & _ & _ & Hget & _ & Hout).
  destruct skip; [discriminate|].
  destruct Hout as (y & m & Hparse & [= ->]).
  pose proof (proj1 (parse_pubdate_ok _ _ _) Hparse) as (p & _ & _ & _ & _ & -> & _).
  exists p. auto.
Qed.

(** ** C9: server order *)

Lemma no_skip_without_filter d : process_paper None d <> Ok None.
Proof.
  intros Hp.
  destruct (process_paper_ok _ _ _ Hp)
    as (titles & t0 & b & pubdate & skip & _ & _ & _ & _ & Hskip & Hout).
  cbn [should_skip] in Hskip. injection Hskip as <-.
  destruct Hout as (y & m & _ & [=]).
Qed.

(** The kept documents form a subsequence of the documents; nothing is
    dropped when no document is skipped. *)
Lemma kept_in_order {A B} (P : A -> option B -> Prop) docs outs :
  Forall2 P docs outs ->
  exists kept,
    kept `sublist_of` docs /\
    Forall2 (fun d r => P d (Some r)) kept (omap id outs) /\
    ((forall d, ~ P d None) -> kept = docs).
Proof.
  induction 1 as [|d o docs outs Hd _ (kept & Hsub & Hrows & Hall)].
  - exists []. repeat split; constructor.
  - destruct o as [r|]; simpl.
    + exists (d :: kept). split; [now constructor|].
      split; [now constructor|]. intros Hno. now rewrite Hall.
    + exists kept. split; [now constructor|].
      split; [assumption|]. intros Hno. now apply Hno in Hd.
Qed.

(** C9: the rows of a returned table correspond, one to one and in the
    same order, to a subsequence of the documents as the remote listed
    them (all of them when the filter is off), and their index labels
    are 0, 1, 2, ... in that order: nothing is re-sorted. *)
Theorem C9_server_order bib tok rf w t df t' resp docs :
  get_ads_citing_papers bib tok rf w t = (Ok (Frame df), t') ->
  http_get w (citing_request bib tok) = Some resp ->
  response_docs resp = Ok docs ->
  exists cited kept,
    kept `sublist_of` docs /\
    Forall2 (fun d r => process_paper (fetch_ctx rf w cited) d = Ok (Some r))
            kept df.*2 /\
    df.*1 = seqZ 0 (df_len df) /\
    (rf = false -> kept = docs).
Proof.
  intros Hrun Hresp Hdocs.
  destruct (fetch_rows _ _ _ _ _ _ _ _ _ Hrun Hresp Hdocs)
    as (cited & outs & _ & Hall & Hrows & Hwl).
  destruct (kept_in_order _ _ _ Hall) as (kept & Hsub & Hkept & Hfull).
  exists cited, kept. rewrite Hrows. split; [assumption|].
  split; [assumption|]. split; [exact Hwl|].
  intros ->. apply Hfull. intros d. apply no_skip_without_filter.
Qed.

(** The spec scenario: three of the five documents are kept, in the
    remote's order. *)
Lemma C9_server_order_witness :
  exists cited kept,
    kept `sublist_of` scenario_docs /\
    Forall2 (fun d r =>
               process_paper (fetch_ctx true world_scenario cited) d = Ok (Some r))
            kept
            [(0, Row (PStr "Later") (PStr "2021B") 2021 3);
             (1, Row (PStr "No month") (PStr "2022C") 2022 1);
             (2, Row (PStr "Same issue") (PStr "2020D") 2020 5)].*2 /\
    [(0, Row (PStr "Later") (PStr "2021B") 2021 3);
     (1, Row (PStr "No month") (PStr "2022C") 2022 1);
     (2, Row (PStr "Same issue") (PStr "2020D") 2020 5)].*1
      = seqZ 0 (df_len [(0, Row (PStr "Later") (PStr "2021B") 2021 3);
                        (1, Row (PStr "No month") (PStr "2022C") 2022 1);
                        (2, Row (PStr "Same issue") (PStr "2020D") 2020 5)]) /\
    (true = false -> kept = scenario_docs).
Proof.
  exact (C9_server_order "2020ApJ...900..100X" "token" true world_scenario []
           _ _ _ scenario_docs eq_refl eq_refl eq_refl).
Defined.

(** * Further properties of the three functions *)

(** ** The order on strings *)

Lemma str_lt_trans a : forall b c,
  str_lt a b = true -> str_lt b c = true -> str_lt a c = true.
Proof.
  induction a as [|x a IH]; intros [|y b] [|z c]; simpl; try discriminate; auto.
  destruct (N.ltb_spec (code x) (code y)) as [Hxy|Hxy];
    destruct (N.ltb_spec (code y) (code z)) as [Hyz|Hyz];
    destruct (N.ltb_spec (code x) (code z)) as [Hxz|Hxz]; auto; try lia;
    destruct (N.eqb_spec (code x) (code y));
    destruct (N.eqb_spec (code y) (code z));
    destruct (N.eqb_spec (code x) (code z)); try discriminate; try lia.
  apply IH.
Qed.

Lemma str_lt_connected a : forall b,
  str_lt a b = false -> str_lt b a = false -> a = b.
Proof.
  induction a as [|x a IH]; intros [|y b]; simpl; try discriminate; auto.
  destruct (N.ltb_spec (code x) (code y)); [discriminate|].
  destruct (N.ltb_spec (code y) (code x)); [discriminate|].
  destruct (N.eqb_spec (code x) (code y)) as [Heq|]; [|lia].
  destruct (N.eqb_spec (code y) (code x)); [|lia].
  intros H1 H2. apply code_inj in Heq as ->. f_equal. now apply IH.
Qed.

(** Under a string cited pubdate the filter test only succeeds on a
    string pubdate. *)
Lemma filter_needs_string c pubdate now skip :
  out_of_range (PStr c) pubdate now = Ok skip ->
  exists p, pubdate = PStr p /\ skip = str_lt p c || str_lt now p.
Proof.
  destruct pubdate as [| | |p| |];
    try (unfold out_of_range; cbn; intros [=]; fail).
  rewrite out_of_range_str. intros [= <-]. eauto.
Qed.

(** ** Running the loop forwards *)

Lemma for_papers_complete ctx docs (outs : list (option row)) :
  Forall2 (fun d o => process_paper ctx d = Ok o) docs outs ->
  forall papers, well_labelled papers ->
  exists df,
    for_papers ctx docs papers = Ok df /\ df.*2 = papers.*2 ++ omap id outs.
Proof.
  induction 1 as [|d o docs outs Hd _ IH]; intros papers Hwl; simpl.
  - exists papers. now rewrite app_nil_r.
  - unfold loop_body. rewrite Hd. cbn [obind]. destruct o as [r|]; cbn [obind].
    + destruct (loc_set_append r papers Hwl) as [Heq Hwl']. rewrite Heq.
      destruct (IH _ Hwl') as (df & Hloop & Hrows). exists df.
      split; [exact Hloop|]. rewrite Hrows, fmap_app. simpl.
      now rewrite <- app_assoc.
    + destruct (IH _ Hwl) as (df & Hloop & Hrows). eauto.
Qed.

Lemma citing_query_run bib tok ctx w t resp docs df :
  http_get w (citing_request bib tok) = Some resp ->
  status_code resp = 200 ->
  response_docs resp = Ok docs ->
  for_papers ctx docs [] = Ok df ->
  citing_query bib tok ctx w t
  = (Ok (Frame df), t ++ [Get (citing_request bib tok)]).
Proof.
  intros Hresp Hs Hdocs Hloop.
  unfold citing_query, bind, requests_get, lift, ret.
  now rewrite Hresp, Hs, Hdocs, Hloop.
Qed.

(** A document that gives a row without the filter gives the same row,
    or is skipped, under a filter with a string cited pubdate. *)
Lemma process_paper_filtered today_s c d r :
  process_paper None d = Ok (Some r) ->
  exists p,
    py_get d "pubdate" (PStr "Unknown") = Ok (PStr p) /\
    process_paper (Some (today_s, PStr c)) d
    = Ok (if str_lt p c || str_lt today_s p then None else Some r).
Proof.
  intros Hp.
  destruct (process_paper_ok _ _ _ Hp)
    as (titles & t0 & b & pubdate & skip & Ht & Ht0 & Hb & Hget & Hskip & Hout).
  cbn [should_skip] in Hskip. injection Hskip as <-.
  destruct Hout as (y & m & Hparse & [= ->]).
  pose proof (proj1 (parse_pubdate_ok _ _ _) Hparse) as (p & _ & _ & _ & _ & -> & _).
  exists p. split; [assumption|].
  unfold process_paper. rewrite Ht. cbn [obind]. rewrite Ht0, Hb, Hget.
  cbn [obind should_skip]. rewrite out_of_range_str. cbn [obind].
  destruct (_ || _); [reflexivity|]. now rewrite Hparse.
Qed.

Lemma filter_outs ctx docs (outs : list (option row)) :
  Forall2 (fun d o => process_paper None d = Ok o) docs outs ->
  (forall d r, process_paper None d = Ok (Some r) ->
               exists skip : bool,
                 process_paper ctx d = Ok (if skip then None else Some r)) ->
  exists outs',
    Forall2 (fun d o => process_paper ctx d = Ok o) docs outs' /\
    omap id outs' `sublist_of` omap id outs.
Proof.
  intros Hall Hctx. induction Hall as [|d o docs outs Hd _ (outs' & Hall' & Hsub)].
  - exists []. split; constructor.
  - destruct o as [r|]; [|now apply no_skip_without_filter in Hd].
    destruct (Hctx d r Hd) as [[] Hskip].
    + exists (None :: outs'). split; [now constructor|]. simpl. now constructor.
    + exists (Some r :: outs'). split; [now constructor|]. simpl. now constructor.
Qed.

Lemma outs_all_some docs (outs : list (option row)) :
  Forall2 (fun d o => process_paper None d = Ok o) docs outs ->
  length (omap id outs) = length docs.
Proof.
  induction 1 as [|d o docs outs Hd _ IH]; [reflexivity|].
  destruct o as [r|]; [|now apply no_skip_without_filter in Hd].
  change (S (length (omap id outs)) = S (length docs)). now rewrite IH.
Qed.

(** ** The filter against the unfiltered fetch *)

(** X1: without the filter a returned table has exactly one row per
    document of the response. *)
Theorem unfiltered_one_row_per_document bib tok w t df t' resp docs :
  get_ads_citing_papers bib tok false w t = (Ok (Frame df), t') ->
  http_get w (citing_request bib tok) = Some resp ->
  response_docs resp = Ok docs ->
  length df = length docs.
Proof.
  intros Hrun Hresp Hdocs.
  destruct (fetch_rows _ _ _ _ _ _ _ _ _ Hrun Hresp Hdocs)
    as (cited & outs & _ & Hall & Hrows & _).
  cbn [fetch_ctx] in Hall. apply outs_all_some in Hall.
  rewrite <- Hall, <- Hrows. now rewrite length_fmap.
Qed.

Lemma unfiltered_one_row_per_document_witness :
  length [(0, Row (PStr "First") (PStr "2021A") 2021 3);
          (1, Row (PStr "Second") (PStr "2019B") 2019 12)]
  = length two_docs.
Proof.
  exact (unfiltered_one_row_per_document "X" "token" world_two_docs [] _ _ _
           two_docs eq_refl eq_refl eq_refl).
Defined.

(** X2: the filter only removes rows and never adds a failure: when the
    unfiltered fetch returns a table and the lookup returns a string
    date, the filtered fetch returns a table too, and its rows are a
    subsequence of the unfiltered rows. *)
Theorem filter_only_removes bib tok w t0 t c t1 df0 t0' :
  get_ads_citing_papers bib tok false w t0 = (Ok (Frame df0), t0') ->
  get_ads_paper_pubdate bib tok w t = (Ok (PStr c), t1) ->
  exists df t',
    get_ads_citing_papers bib tok true w t = (Ok (Frame df), t') /\
    df.*2 `sublist_of` df0.*2.
Proof.
  intros Hrun Hlook.
  apply fetch_frame in Hrun as (cited0 & resp & docs & _ & Hresp & Hs & Hdocs & Hloop).
  cbn [fetch_ctx] in Hloop.
  apply for_papers_spec in Hloop as (outs & Hall & Hrows & _);
    [|exact well_labelled_nil].
  destruct (filter_outs (Some (strftime_Ymd (today w), PStr c)) _ _ Hall)
    as (outs' & Hall' & Hsub).
  { intros d r Hd.
    destruct (process_paper_filtered (strftime_Ymd (today w)) c d r Hd)
      as (p & _ & Hp). eauto. }
  destruct (for_papers_complete _ _ _ Hall' [] well_labelled_nil)
    as (df & Hloop' & Hrows').
  exists df, ((t ++ [Get (pubdate_request bib tok)]) ++ [Get (citing_request bib tok)]).
  split.
  - rewrite (fetch_reaches_query bib tok true w t (PStr c)).
    + now apply citing_query_run with resp docs.
    + intros _. now rewrite Hlook.
  - change (df0.*2 = omap id outs) in Hrows.
    change (df.*2 = omap id outs') in Hrows'. now rewrite Hrows, Hrows'.
Qed.

Lemma filter_only_removes_witness :
  exists df t',
    get_ads_citing_papers "X" "token" true world_two_docs [] = (Ok (Frame df), t') /\
    df.*2 `sublist_of`
      [(0, Row (PStr "First") (PStr "2021A") 2021 3);
       (1, Row (PStr "Second") (PStr "2019B") 2019 12)].*2.
Proof.
  exact (filter_only_removes "X" "token" world_two_docs [] [] "2020-05-00" _ _ _
           eq_refl eq_refl).
Defined.

(** X3: when the cited paper's pubdate is lexicographically later than
    the current date string, a filtered fetch that returns a table
    returns it without rows. *)
Theorem cited_after_today_empties bib tok w t c t1 df t' :
  get_ads_paper_pubdate bib tok w t = (Ok (PStr c), t1) ->
  lex_lt (strftime_Ymd (today w)) c ->
  get_ads_citing_papers bib tok true w t = (Ok (Frame df), t') ->
  df = [].
Proof.
  intros Hlook Hlate Hrun. apply str_lt_lex in Hlate.
  apply fetch_frame in Hrun as (cited & resp & docs & Hc & _ & _ & _ & Hloop).
  destruct (Hc eq_refl) as [Hlook' _]. rewrite Hlook in Hlook'.
  injection Hlook' as <- _. cbn [fetch_ctx] in Hloop.
  apply for_papers_spec in Hloop as (outs & Hall & Hrows & _);
    [|exact well_labelled_nil].
  assert (Hnone : omap id outs = []).
  { clear Hrows. induction Hall as [|d o docs outs Hd _ IH]; [reflexivity|].
    destruct (process_paper_ok _ _ _ Hd)
      as (titles & t0 & b & pubdate & skip & _ & _ & _ & _ & Hskip & Hout).
    cbn [should_skip] in Hskip.
    apply filter_needs_string in Hskip as (p & -> & ->).
    destruct (str_lt p c) eqn:Hpc; cbn [orb] in Hout; [now subst o|].
    destruct (str_lt (strftime_Ymd (today w)) p) eqn:Hnp; [now subst o|].
    exfalso.
    destruct (str_lt c p) eqn:Hcp.
    - rewrite (str_lt_trans _ _ _ Hlate Hcp) in Hnp. discriminate.
    - apply (str_lt_connected _ _ Hpc) in Hcp as ->. congruence. }
  change (df.*2 = omap id outs) in Hrows.
  rewrite Hnone in Hrows. now apply fmap_nil_inv in Hrows.
Qed.

Lemma cited_after_today_empties_witness :
  @nil (Z * row) = [].
Proof.
  refine (cited_after_today_empties "X" "tok" world_future_cited []
            "2030-01-00" _ [] _ eq_refl _ eq_refl).
  apply str_lt_lex. reflexivity.
Defined.

(** X4: the year of every returned row is a non-negative integer. *)
Theorem year_never_negative bib tok rf w t df t' :
  get_ads_citing_papers bib tok rf w t = (Ok (Frame df), t') ->
  forall lr, lr ∈ df -> 0 <= year lr.2.
Proof.
  intros Hrun lr Hin.
  apply fetch_frame in Hrun as (cited & resp & docs & _ & _ & _ & _ & Hloop).
  apply for_papers_spec in Hloop as (outs & Hall & Hrows & _);
    [|exact well_labelled_nil].
  change (df.*2 = omap id outs) in Hrows.
  assert (Hr : lr.2 ∈ omap id outs).
  { rewrite <- Hrows. apply list_elem_of_fmap. eauto. }
  destruct (rows_have_source _ _ _ _ Hall Hr) as (d & _ & Hp).
  destruct (retained_pubdate_parsed _ _ _ Hp) as (p & _ & Hparse).
  apply parse_pubdate_ok in Hparse as (p' & ys & ms & ds & m0 & _ & Hs & Hy & _).
  apply (py_int_nonneg ys); [assumption|].
  pose proof (split_on_no_sep "-" p') as Hno. rewrite Hs in Hno.
  now inversion Hno.
Qed.

Lemma year_never_negative_witness :
  0 <= year (0, Row (PStr "Later") (PStr "2021B") 2021 3).2.
Proof.
  apply (year_never_negative "2020ApJ...900..100X" "token" true world_scenario
           [] _ _ eq_refl).
  apply list_elem_of_lookup. exists 0%nat. reflexivity.
Defined.

(** ** What the lookup returns *)

Lemma lookup_run bib tok w t resp data :
  http_get w (pubdate_request bib tok) = Some resp ->
  status_code resp = 200 ->
  body resp = Some data ->
  fst (get_ads_paper_pubdate bib tok w t)
  = (let! doc := first_doc data in
     let! found := py_contains "pubdate" doc in
     if found : bool then getitem_str doc "pubdate" else Ok PNone).
Proof.
  intros Hresp Hs Hb.
  unfold get_ads_paper_pubdate, bind, requests_get, lift, ret, response_json.
  rewrite Hresp, Hs, Hb. cbn [Z.eqb Pos.eqb].
  destruct (first_doc data) as [doc|]; [|reflexivity]. cbn [obind].
  destruct (py_contains "pubdate" doc) as [[]|]; reflexivity.
Qed.

Lemma lookup_not_200 bib tok w t resp :
  http_get w (pubdate_request bib tok) = Some resp ->
  status_code resp <> 200 ->
  fst (get_ads_paper_pubdate bib tok w t) = Ok PNone.
Proof.
  intros Hresp Hs. unfold get_ads_paper_pubdate, bind, requests_get, ret.
  rewrite Hresp. now destruct (Z.eqb_spec (status_code resp) 200).
Qed.

Lemma lookup_down bib tok w t :
  http_get w (pubdate_request bib tok) = None ->
  fst (get_ads_paper_pubdate bib tok w t) = Raise ConnectionError.
Proof.
  intros Hresp. unfold get_ads_paper_pubdate, bind, requests_get.
  now rewrite Hresp.
Qed.

Lemma lookup_not_json bib tok w t resp :
  http_get w (pubdate_request bib tok) = Some resp ->
  status_code resp = 200 ->
  body resp = None ->
  fst (get_ads_paper_pubdate bib tok w t) = Raise JSONDecodeError.
Proof.
  intros Hresp Hs Hb.
  unfold get_ads_paper_pubdate, bind, requests_get, lift, response_json.
  now rewrite Hresp, Hs, Hb.
Qed.

(** What the body of a 200 answer makes the lookup return. *)
Lemma found_date_iff data v :
  is_none v = false ->
  (let! doc := first_doc data in
   let! found := py_contains "pubdate" doc in
   if found : bool then getitem_str doc "pubdate" else Ok PNone) = Ok v <->
  exists fields,
    first_doc data = Ok (PDict fields) /\ assoc "pubdate" fields = Some v.
Proof.
  intros Hv. split.
  - destruct (first_doc data) as [doc|]; cbn [obind]; [|intros [=]].
    destruct doc as [| | |s|l|fields]; cbn [py_contains obind]; try (intros [=]; fail).
    + destruct (is_substring "pubdate" s); cbn [getitem_str]; intros [=].
      subst v. discriminate.
    + destruct (existsb _ l); cbn [getitem_str]; intros [=].
      subst v. discriminate.
    + cbn [getitem_str]. destruct (assoc "pubdate" fields) as [x|] eqn:Ex.
      * rewrite bool_decide_eq_true_2 by eauto. intros [= ->]. eauto.
      * rewrite bool_decide_eq_false_2 by (intros [? [=]]).
        intros [= <-]. discriminate.
  - intros (fields & -> & Hf). cbn [obind py_contains getitem_str]. rewrite Hf.
    now rewrite bool_decide_eq_true_2 by eauto.
Qed.

(** X5: the lookup returns a date [v] (anything but [None]) exactly when
    the remote answers with status 200 and a JSON body whose
    [response.docs[0]] is an object that binds [pubdate] to [v]. *)
Theorem lookup_returns_date_iff bib tok w t v :
  is_none v = false ->
  fst (get_ads_paper_pubdate bib tok w t) = Ok v <->
  exists resp data fields,
    http_get w (pubdate_request bib tok) = Some resp /\
    status_code resp = 200 /\
    body resp = Some data /\
    first_doc data = Ok (PDict fields) /\
    assoc "pubdate" fields = Some v.
Proof.
  intros Hv. split.
  - intros Hrun.
    destruct (http_get w (pubdate_request bib tok)) as [resp|] eqn:Hresp;
      [|rewrite lookup_down in Hrun by assumption; discriminate].
    destruct (Z.eq_dec (status_code resp) 200) as [Hs|Hs];
      [|rewrite (lookup_not_200 _ _ _ _ _ Hresp Hs) in Hrun;
        injection Hrun as <-; discriminate].
    destruct (body resp) as [data|] eqn:Hb;
      [|rewrite (lookup_not_json _ _ _ _ _ Hresp Hs Hb) in Hrun; discriminate].
    rewrite (lookup_run _ _ _ _ _ _ Hresp Hs Hb) in Hrun.
    apply (found_date_iff data v Hv) in Hrun as (fields & Hdoc & Hf).
    exists resp, data, fields. auto.
  - intros (resp & data & fields & Hresp & Hs & Hb & Hdoc & Hf).
    rewrite (lookup_run _ _ _ _ _ _ Hresp Hs Hb).
    apply (found_date_iff data v Hv). eauto.
Qed.

Lemma lookup_returns_date_iff_witness :
  fst (get_ads_paper_pubdate "2020ApJ...900..100X" "token" world_scenario [])
    = Ok (PStr "2020-05-00") <->
  exists resp data fields,
    http_get world_scenario (pubdate_request "2020ApJ...900..100X" "token")
      = Some resp /\
    status_code resp = 200 /\
    body resp = Some data /\
    first_doc data = Ok (PDict fields) /\
    assoc "pubdate" fields = Some (PStr "2020-05-00").
Proof.
  exact (lookup_returns_date_iff "2020ApJ...900..100X" "token" world_scenario []
           (PStr "2020-05-00") eq_refl).
Defined.

(** X6: the lookup returns [None] exactly when the remote answers with a
    status other than 200 (the body is then not even decoded), or with
    status 200 and a first document in which [pubdate] is not found or is
    bound to null. *)
Theorem lookup_returns_none_iff bib tok w t :
  fst (get_ads_paper_pubdate bib tok w t) = Ok PNone <->
  exists resp,
    http_get w (pubdate_request bib tok) = Some resp /\
    (status_code resp <> 200 \/
     status_code resp = 200 /\
     exists data doc,
       body resp = Some data /\
       first_doc data = Ok doc /\
       (py_contains "pubdate" doc = Ok false \/
        exists fields, doc = PDict fields /\ assoc "pubdate" fields = Some PNone)).
Proof.
  split.
  - intros Hrun.
    destruct (http_get w (pubdate_request bib tok)) as [resp|] eqn:Hresp;
      [|rewrite lookup_down in Hrun by assumption; discriminate].
    exists resp. split; [reflexivity|].
    destruct (Z.eq_dec (status_code resp) 200) as [Hs|Hs]; [right|now left].
    split; [assumption|].
    destruct (body resp) as [data|] eqn:Hb;
      [|rewrite (lookup_not_json _ _ _ _ _ Hresp Hs Hb) in Hrun; discriminate].
    rewrite (lookup_run _ _ _ _ _ _ Hresp Hs Hb) in Hrun.
    destruct (first_doc data) as [doc|] eqn:Hdoc; [|discriminate].
    cbn [obind] in Hrun.
    exists data, doc. do 2 (split; [first [reflexivity|assumption]|]).
    destruct (py_contains "pubdate" doc) as [[]|] eqn:Hc; [|now left|discriminate].
    right. cbn [obind] in Hrun.
    destruct doc as [| | |s|l|fields]; try discriminate.
    exists fields. split; [reflexivity|]. cbn [getitem_str] in Hrun.
    destruct (assoc "pubdate" fields); [congruence|discriminate].
  - intros (resp & Hresp & [Hs|(Hs & data & doc & Hb & Hdoc & Hcase)]).
    + now apply lookup_not_200 with resp.
    + rewrite (lookup_run _ _ _ _ _ _ Hresp Hs Hb), Hdoc. cbn [obind].
      destruct Hcase as [->|(fields & -> & Hf)]; [reflexivity|].
      cbn [py_contains obind getitem_str]. rewrite Hf.
      now rewrite bool_decide_eq_true_2 by eauto.
Qed.

(** X7: whatever it returns or raises, the lookup issues exactly one
    request, for [bibcode:<id>] and the field [pubdate] with the token in
    the Authorization header, and prints nothing. *)
Theorem lookup_single_request bib tok w t :
  exists evs,
    snd (get_ads_paper_pubdate bib tok w t) = t ++ evs /\
    requests_of evs
    = [Request "https://api.adsabs.harvard.edu/v1/search/query?"
         [("Authorization", "Bearer " +:+ tok)]
         [("q", PStr ("bibcode:" +:+ bib)); ("fl", PStr "pubdate")]] /\
    prints_of evs = [].
Proof.
  exists [Get (pubdate_request bib tok)]. split; [apply lookup_trace|].
  split; reflexivity.
Qed.

(** ** The requests and printed lines of a fetch *)

Lemma citing_query_trace bib tok ctx w t :
  match fst (citing_query bib tok ctx w t) with
  | Ok EmptyList =>
      exists resp,
        http_get w (citing_request bib tok) = Some resp /\
        status_code resp <> 200 /\
        snd (citing_query bib tok ctx w t)
        = t ++ [Get (citing_request bib tok);
                Print [PStr "Error:"; PInt (status_code resp)]]
  | _ => snd (citing_query bib tok ctx w t) = t ++ [Get (citing_request bib tok)]
  end.
Proof.
  unfold citing_query, bind, requests_get, lift, ret, print, emit.
  destruct (http_get w _) as [resp|]; [|reflexivity].
  destruct (Z.eqb_spec (status_code resp) 200) as [Hs|Hs].
  - destruct (response_docs resp) as [docs|]; [|reflexivity].
    destruct (for_papers ctx docs []); reflexivity.
  - cbn [fst snd]. exists resp. rewrite <- app_assoc. auto.
Qed.

(** X8: a fetch issues the lookup request first (only under the filter)
    and then at most one citing-papers request, nothing else; a returned
    table or a raised exception comes with no printed line, and the empty
    list comes with exactly one, after the last request. *)
Theorem fetch_trace_shape bib tok (rf : bool) w t :
  let L := Get (pubdate_request bib tok) in
  let C := Get (citing_request bib tok) in
  let pre : trace := if rf then [L] else [] in
  let run := get_ads_citing_papers bib tok rf w t in
  match fst run with
  | Ok (Frame _) => snd run = t ++ pre ++ [C]
  | Ok EmptyList =>
      rf = true /\
      snd run
      = t ++ [L; Print [PStr "Unable to retrieve publication date of the cited paper."]]
      \/
      exists resp,
        http_get w (citing_request bib tok) = Some resp /\
        status_code resp <> 200 /\
        snd run = t ++ pre ++ [C; Print [PStr "Error:"; PInt (status_code resp)]]
  | Raise _ => snd run = t ++ pre ++ [C] \/ rf = true /\ snd run = t ++ [L]
  end.
Proof.
  intros L C pre run. subst run pre L C.
  destruct (get_ads_citing_papers bib tok rf w t) as [o tr] eqn:Hrun.
  cbn [fst snd]. unfold get_ads_citing_papers in Hrun. destruct rf.
  - unfold bind at 1 in Hrun. unfold today_strftime in Hrun.
    unfold bind at 1 in Hrun.
    pose proof (lookup_trace bib tok w t) as Ht.
    destruct (get_ads_paper_pubdate bib tok w t) as [[cited|e] t1];
      cbn [snd] in Ht; subst t1; [|injection Hrun as <- <-; right; auto].
    destruct (is_none cited).
    + unfold bind, print, emit, ret in Hrun. injection Hrun as <- <-. left.
      rewrite <- app_assoc. auto.
    + pose proof (citing_query_trace bib tok
                    (Some (strftime_Ymd (today w), cited)) w
                    (t ++ [Get (pubdate_request bib tok)])) as Hq.
      rewrite Hrun in Hq. cbn [fst snd] in Hq.
      destruct o as [[|df]|e].
      * right. destruct Hq as (resp & Hresp & Hs & ->). exists resp.
        rewrite <- app_assoc. auto.
      * subst tr. now rewrite <- app_assoc.
      * left. subst tr. now rewrite <- app_assoc.
  - pose proof (citing_query_trace bib tok None w t) as Hq.
    rewrite Hrun in Hq. cbn [fst snd] in Hq. cbn [app].
    destruct o as [[|df]|e].
    + right. destruct Hq as (resp & Hresp & Hs & ->). exists resp. auto.
    + assumption.
    + now left.
Qed.

(** X9: the empty list is a failure signal only: it is returned exactly
    when the filter is on and the lookup gave no date, or when the
    citing-papers query was reached and answered with a status other than
    200.  A 200 answer never yields it. *)
Theorem empty_list_iff_failure bib tok rf w t :
  fst (get_ads_citing_papers bib tok rf w t) = Ok EmptyList <->
  rf = true /\ fst (get_ads_paper_pubdate bib tok w t) = Ok PNone \/
  (rf = true ->
   exists cited,
     fst (get_ads_paper_pubdate bib tok w t) = Ok cited /\ is_none cited = false) /\
  exists resp,
    http_get w (citing_request bib tok) = Some resp /\ status_code resp <> 200.
Proof.
  split.
  - intros Hrun.
    assert (Hq : forall ctx t0,
               fst (citing_query bib tok ctx w t0) = Ok EmptyList ->
               exists resp,
                 http_get w (citing_request bib tok) = Some resp /\
                 status_code resp <> 200).
    { intros ctx t0 H. pose proof (citing_query_trace bib tok ctx w t0) as Hq.
      rewrite H in Hq. destruct Hq as (resp & ? & ? & _). eauto. }
    unfold get_ads_citing_papers in Hrun. destruct rf.
    + unfold bind at 1 in Hrun. unfold today_strftime in Hrun.
      unfold bind at 1 in Hrun.
      destruct (get_ads_paper_pubdate bib tok w t) as [[cited|e] t1];
        [|discriminate].
      destruct cited; cbn [is_none] in Hrun; [left; auto| | | | |];
        right; (split; [intros _; eexists; split; reflexivity|]); eauto.
    + right. split; [discriminate|]. eauto.
  - assert (Hq : forall ctx t0 resp,
               http_get w (citing_request bib tok) = Some resp ->
               status_code resp <> 200 ->
               fst (citing_query bib tok ctx w t0) = Ok EmptyList).
    { intros ctx t0 resp Hresp Hs.
      unfold citing_query, bind, requests_get, print, emit, ret. rewrite Hresp.
      now destruct (Z.eqb_spec (status_code resp) 200). }
    intros [[-> Hnone]|[Hlook (resp & Hresp & Hs)]].
    + unfold get_ads_citing_papers, bind, today_strftime.
      destruct (get_ads_paper_pubdate bib tok w t) as [o t1].
      cbn [fst] in Hnone. now subst o.
    + destruct rf.
      * destruct (Hlook eq_refl) as (cited & Hc & Hn).
        rewrite (fetch_reaches_query bib tok true w t cited) by auto.
        now apply Hq with resp.
      * now apply Hq with resp.
Qed.

(** ** Failures pass through *)

(** X10: an exception raised by the lookup (transport failure, body that
    is not JSON, no first document, ...) is not caught: the filtered
    fetch and the plotter raise the same exception, and the citing-papers
    request is never issued. *)
Theorem lookup_failure_propagates bib tok resolution w t e t1 :
  get_ads_paper_pubdate bib tok w t = (Raise e, t1) ->
  get_ads_citing_papers bib tok true w t
    = (Raise e, t ++ [Get (pubdate_request bib tok)]) /\
  plot_ADS_num_citations_by_time bib tok resolution w t
    = (Raise e, t ++ [Get (pubdate_request bib tok)]).
Proof.
  intros Hlook. pose proof (lookup_trace bib tok w t) as Ht.
  rewrite Hlook in Ht. cbn [snd] in Ht. subst t1.
  assert (Hfetch : get_ads_citing_papers bib tok true w t
                   = (Raise e, t ++ [Get (pubdate_request bib tok)])).
  { unfold get_ads_citing_papers, bind, today_strftime. now rewrite Hlook. }
  split; [exact Hfetch|].
  unfold plot_ADS_num_citations_by_time, bind at 1. now rewrite Hfetch.
Qed.

Lemma lookup_failure_propagates_witness :
  get_ads_citing_papers "X" "token" true world_lookup_down []
    = (Raise ConnectionError, [] ++ [Get (pubdate_request "X" "token")]) /\
  plot_ADS_num_citations_by_time "X" "token" "month" world_lookup_down []
    = (Raise ConnectionError, [] ++ [Get (pubdate_request "X" "token")]).
Proof.
  exact (lookup_failure_propagates "X" "token" "month" world_lookup_down []
           ConnectionError _ eq_refl).
Defined.

Lemma bump_not_nil k n groups : bump k n groups <> [].
Proof.
  destruct groups as [|[k' c] groups]; simpl; [discriminate|].
  destruct (key_eq k k'); [discriminate|]. now destruct (key_lt k k').
Qed.

Lemma title_count_not_nil by_month (df : dataframe) :
  df <> [] -> title_count by_month df <> [].
Proof.
  unfold title_count. destruct df as [|lr df]; [contradiction|]. intros _.
  cbn [fold_left].
  generalize (bump (group_key by_month lr.2)
                (if is_none (title lr.2) then 0 else 1) []),
    (bump_not_nil (group_key by_month lr.2)
       (if is_none (title lr.2) then 0 else 1) []).
  induction df as [|x df IH]; intros acc Hacc; cbn [fold_left]; [exact Hacc|].
  apply IH, bump_not_nil.
Qed.

(** X11: the plotter draws only after a fetch that returned a table: an
    exception of the fetch is passed on and the empty list raises
    [AttributeError], in both cases with no drawing call; for a table
    with rows the drawing calls are the bar plot of the grouped counts
    (by year and month for resolution "month", by year otherwise), the
    legend, the x label, the x ticks and the y label, in this order. *)
Theorem plot_outcome bib tok resolution w t o tr :
  get_ads_citing_papers bib tok true w t = (o, tr) ->
  match o with
  | Ok (Frame df) =>
      df <> [] ->
      plot_ADS_num_citations_by_time bib tok resolution w t
      = (Ok tt,
         tr ++ [PlotBar (title_count (String.eqb resolution "month") df);
                Legend ["Citations by " +:+ resolution];
                Xlabel "Date";
                Xticks 0;
                Ylabel "Number of citations"])
  | Ok EmptyList =>
      plot_ADS_num_citations_by_time bib tok resolution w t
      = (Raise AttributeError, tr)
  | Raise e =>
      plot_ADS_num_citations_by_time bib tok resolution w t = (Raise e, tr)
  end.
Proof.
  intros Hrun.
  destruct o as [[|df]|e]; [| intros Hdf |];
    unfold plot_ADS_num_citations_by_time, bind, lift;
    rewrite Hrun; cbn [groupby_title_count]; try reflexivity.
  pose proof (title_count_not_nil (String.eqb resolution "month") df Hdf) as Hne.
  destruct (title_count (String.eqb resolution "month") df) as [|g gs];
    [contradiction|].
  unfold plot_bar, emit. now rewrite <- !app_assoc.
Qed.

Lemma plot_outcome_witness :
  plot_ADS_num_citations_by_time "2020ApJ...900..100X" "token" "year"
    world_scenario []
  = (Ok tt,
     [Get (pubdate_request "2020ApJ...900..100X" "token");
      Get (citing_request "2020ApJ...900..100X" "token")]
     ++ [PlotBar (title_count (String.eqb "year" "month")
                    [(0, Row (PStr "Later") (PStr "2021B") 2021 3);
                     (1, Row (PStr "No month") (PStr "2022C") 2022 1);
                     (2, Row (PStr "Same issue") (PStr "2020D") 2020 5)]);
         Legend ["Citations by " +:+ "year"];
         Xlabel "Date";
         Xticks 0;
         Ylabel "Number of citations"]).
Proof.
  refine (plot_outcome "2020ApJ...900..100X" "token" "year" world_scenario []
            (Ok (Frame _)) _ eq_refl _).
  discriminate.
Defined.

(** ** Grouping and counting *)

Lemma key_eq_iff a : forall b, key_eq a b = true <-> a = b.
Proof.
  induction a as [|x a IH]; intros [|y b]; simpl; try easy.
  rewrite andb_true_iff, Z.eqb_eq, IH. split; [intros [-> ->]|intros [= -> ->]]; auto.
Qed.

Lemma key_eq_refl a : key_eq a a = true.
Proof. now apply key_eq_iff. Qed.

Lemma key_lt_irrefl a : key_lt a a = false.
Proof.
  induction a as [|x a IH]; simpl; [reflexivity|].
  now rewrite Z.ltb_irrefl, Z.eqb_refl, IH.
Qed.

Lemma key_lt_trans a : forall b c,
  key_lt a b = true -> key_lt b c = true -> key_lt a c = true.
Proof.
  induction a as [|x a IH]; intros [|y b] [|z c]; simpl; try easy.
  rewrite !orb_true_iff, !andb_true_iff, !Z.ltb_lt, !Z.eqb_eq.
  intros [Hxy|[-> Hab]] [Hyz|[-> Hbc]]; eauto; left; lia.
Qed.

Lemma key_connected a : forall b,
  key_eq a b = false -> key_lt a b = false -> key_lt b a = true.
Proof.
  induction a as [|x a IH]; intros [|y b]; simpl; try easy.
  rewrite andb_false_iff, orb_false_iff, andb_false_iff, orb_true_iff,
    andb_true_iff, !Z.ltb_ge, Z.ltb_lt, !Z.eqb_neq, Z.eqb_eq.
  intros He [Hle Hl].
  destruct (Z.eq_dec x y) as [->|Hne]; [|left; lia].
  right. split; [reflexivity|]. apply IH; [|].
  - destruct He; [contradiction|assumption].
  - destruct Hl; [contradiction|assumption].
Qed.

Lemma bump_keys k n groups x :
  x ∈ (bump k n groups).*1 <-> x = k \/ x ∈ groups.*1.
Proof.
  induction groups as [|[k' c] groups IH]; simpl.
  - rewrite list_elem_of_singleton. split; [auto|]. intros [|H]; [assumption|inversion H].
  - destruct (key_eq k k') eqn:He.
    + apply key_eq_iff in He as ->. simpl. rewrite elem_of_cons. tauto.
    + destruct (key_lt k k'); simpl.
      * rewrite !elem_of_cons. tauto.
      * rewrite !elem_of_cons, IH. tauto.
Qed.

Lemma bump_ascending k n groups :
  ascending_keys groups -> ascending_keys (bump k n groups).
Proof.
  unfold ascending_keys.
  induction groups as [|[k' c] groups IH]; simpl; intros Hs.
  - repeat constructor.
  - inversion Hs as [|? ? Hrest Hall]; subst.
    destruct (key_eq k k') eqn:He; [exact Hs|].
    destruct (key_lt k k') eqn:Hl; simpl.
    + constructor; [exact Hs|]. constructor; [assumption|].
      eapply Forall_impl; [exact Hall|]. intros x Hx. simpl in Hx.
      now apply key_lt_trans with k'.
    + constructor; [now apply IH|]. apply Forall_forall. intros x Hx.
      apply bump_keys in Hx as [->|Hx].
      * now apply key_connected.
      * rewrite Forall_forall in Hall. now apply Hall.
Qed.

Lemma bump_group_count k0 k n groups :
  group_count k0 (bump k n groups)
  = group_count k0 groups + (if key_eq k0 k then n else 0).
Proof.
  induction groups as [|[k' c] groups IH]; simpl.
  - lia.
  - destruct (key_eq k k') eqn:He.
    + apply key_eq_iff in He as ->. simpl. destruct (key_eq k0 k'); lia.
    + destruct (key_lt k k'); simpl; [lia|]. rewrite IH. lia.
Qed.

Lemma total_count_cons k c groups :
  total_count ((k, c) :: groups) = c + total_count groups.
Proof. reflexivity. Qed.

Lemma bump_total k n groups :
  total_count (bump k n groups) = total_count groups + n.
Proof.
  induction groups as [|[k' c] groups IH]; cbn [bump].
  - rewrite total_count_cons. unfold total_count. simpl. lia.
  - destruct (key_eq k k'); [rewrite !total_count_cons; lia|].
    destruct (key_lt k k'); rewrite !total_count_cons; [lia|].
    rewrite IH. lia.
Qed.

(** The count of a key that occurs once among ascending keys. *)
Lemma group_count_of_entry groups k c :
  ascending_keys groups -> (k, c) ∈ groups -> group_count k groups = c.
Proof.
  unfold ascending_keys.
  induction groups as [|[k' c'] groups IH]; simpl; intros Hs Hin;
    [inversion Hin|].
  inversion Hs as [|? ? Hrest Hall]; subst.
  assert (Hfresh : forall x, key_lt k' x = true -> key_eq x k' = false).
  { intros x Hx. destruct (key_eq x k') eqn:He; [|reflexivity].
    apply key_eq_iff in He as ->. now rewrite key_lt_irrefl in Hx. }
  apply elem_of_cons in Hin as [[= -> ->]|Hin].
  - rewrite key_eq_refl.
    assert (Hzero : forall g, Forall (fun x => key_lt k' x = true) g.*1 ->
                              group_count k' g = 0).
    { clear -Hfresh. induction g as [|[x cx] g IHg]; simpl; intros Hf; [reflexivity|].
      inversion Hf as [|? ? Hx Hg]; subst.
      destruct (key_eq k' x) eqn:He.
      - apply key_eq_iff in He as <-. now rewrite key_lt_irrefl in Hx.
      - rewrite IHg by assumption. lia. }
    rewrite Hzero by assumption. lia.
  - rewrite Forall_forall in Hall.
    rewrite (Hfresh k); [|apply Hall; apply list_elem_of_fmap; now exists (k, c)].
    rewrite IH by assumption. lia.
Qed.

(** The three measures along the fold of [title_count]. *)
Lemma title_count_fold by_month df : forall acc,
  ascending_keys acc ->
  let out :=
    fold_left
      (fun groups lr =>
         bump (group_key by_month lr.2)
              (if is_none (title lr.2) then 0 else 1) groups)
      df acc in
  ascending_keys out /\
  total_count out = total_count acc + Z.of_nat (length (titled_rows df)) /\
  (forall k,
      group_count k out
      = group_count k acc
        + Z.of_nat (length (rows_of_group by_month k (titled_rows df)))) /\
  (forall k, k ∈ out.*1 <->
             k ∈ acc.*1 \/ exists lr, lr ∈ df /\ group_key by_month lr.2 = k).
Proof.
  induction df as [|lr df IH]; intros acc Hacc; cbn [fold_left].
  - simpl. split; [assumption|]. split; [lia|]. split; [intros; lia|].
    intros k. split; [auto|]. intros [H|(lr & Hin & _)]; [assumption|inversion Hin].
  - destruct (IH _ (bump_ascending (group_key by_month lr.2)
                      (if is_none (title lr.2) then 0 else 1) acc Hacc))
      as (Hs & Ht & Hg & Hk).
    split; [exact Hs|]. split; [|split].
    + rewrite Ht, bump_total. unfold titled_rows.
      destruct (is_none (title lr.2)) eqn:Hn.
      * rewrite filter_cons_False by congruence. lia.
      * rewrite filter_cons_True by assumption. simpl. lia.
    + intros k. rewrite Hg, bump_group_count. unfold titled_rows, rows_of_group.
      destruct (is_none (title lr.2)) eqn:Hn.
      * rewrite (filter_cons_False _ lr df) by congruence.
        destruct (key_eq k _); lia.
      * rewrite (filter_cons_True _ lr df) by assumption.
        destruct (key_eq k (group_key by_month lr.2)) eqn:He.
        -- apply key_eq_iff in He. rewrite filter_cons_True by congruence.
           simpl. lia.
        -- rewrite filter_cons_False; [lia|]. intros Heq.
           rewrite <- Heq, key_eq_refl in He. discriminate.
    + intros k. rewrite Hk, bump_keys. split.
      * intros [[->|H]|(x & Hx & Hkx)]; eauto.
        -- right. exists lr. split; [left|reflexivity].
        -- right. exists x. split; [now right|assumption].
      * intros [H|(x & Hx & Hkx)]; [auto|].
        apply elem_of_cons in Hx as [->|Hx]; eauto.
Qed.

(** X12: the bars of the plot come in strictly ascending key order, so
    every (year) or (year, month) key has one bar. *)
Theorem title_count_ascending by_month df :
  ascending_keys (title_count by_month df).
Proof.
  apply (title_count_fold by_month df []). constructor.
Qed.

(** X13: there is a bar for exactly the keys of the rows of the table,
    and the height of each bar is the number of rows of its group whose
    title is not null. *)
Theorem title_count_groups by_month df :
  (forall k,
      k ∈ (title_count by_month df).*1 <->
      exists lr, lr ∈ df /\ group_key by_month lr.2 = k) /\
  (forall k c,
      (k, c) ∈ title_count by_month df ->
      c = Z.of_nat (length (rows_of_group by_month k (titled_rows df)))).
Proof.
  destruct (title_count_fold by_month df []) as (Hs & _ & Hg & Hk);
    [constructor|].
  split.
  - intros k. rewrite (Hk k). split; [intros [H|H]; [inversion H|exact H]|auto].
  - intros k c Hin. rewrite <- (group_count_of_entry _ k c Hs Hin).
    rewrite (Hg k). simpl. lia.
Qed.

(** X14: the heights of the bars add up to the number of rows with a
    non-null title, hence to at most the number of rows. *)
Theorem title_count_total by_month df :
  total_count (title_count by_month df) = Z.of_nat (length (titled_rows df)) /\
  total_count (title_count by_month df) <= Z.of_nat (length df).
Proof.
  destruct (title_count_fold by_month df []) as (_ & Ht & _); [constructor|].
  assert (Heq : total_count (title_count by_month df)
                = Z.of_nat (length (titled_rows df))).
  { unfold title_count. rewrite Ht. unfold total_count. simpl. lia. }
  split; [exact Heq|]. rewrite Heq. unfold titled_rows.
  pose proof (length_filter (fun lr : Z * row => is_none (title lr.2) = false) df).
  lia.
Qed.

(** ** Well-formed date texts *)

Ltac digit_cases n :=
  unfold digit_char;
  let H := fresh in
  assert (H : n mod 10 = 0 \/ n mod 10 = 1 \/ n mod 10 = 2 \/ n mod 10 = 3 \/
              n mod 10 = 4 \/ n mod 10 = 5 \/ n mod 10 = 6 \/ n mod 10 = 7 \/
              n mod 10 = 8 \/ n mod 10 = 9)
    by (pose proof (Z.mod_pos_bound n 10 ltac:(lia)); lia);
  repeat (destruct H as [H|H]); rewrite H; reflexivity.

Lemma digit_char_not_space n : is_space (digit_char n) = false.
Proof. digit_cases n. Qed.

Lemma digit_char_not_hyphen n : Ascii.eqb (digit_char n) "-" = false.
Proof. digit_cases n. Qed.

Lemma digit_char_not_plus n : Ascii.eqb (digit_char n) "+" = false.
Proof. digit_cases n. Qed.

Lemma digit_val_digit_char n : digit_val (digit_char n) = Some (n mod 10).
Proof. digit_cases n. Qed.

Lemma code_digit_char n : code (digit_char n) = Z.to_N (48 + n mod 10).
Proof.
  unfold code, digit_char.
  pose proof (Z.mod_pos_bound n 10 ltac:(lia)). rewrite N_ascii_embedding; lia.
Qed.

Lemma digits_from_digits ds : forall st acc,
  st = AfterDigit \/ ds <> [] ->
  digits_from st acc (digits_string ds) = Some (digits_value ds acc).
Proof.
  induction ds as [|d ds IH]; intros st acc Hst; simpl.
  - destruct Hst as [->|Hne]; [reflexivity|contradiction].
  - rewrite digit_val_digit_char. apply IH. now left.
Qed.

Lemma lstrip_digits ds : lstrip (digits_string ds) = digits_string ds.
Proof. destruct ds as [|d ds]; simpl; [reflexivity|]. now rewrite digit_char_not_space. Qed.

Lemma rstrip_digits ds : rstrip (digits_string ds) = digits_string ds.
Proof.
  induction ds as [|d ds IH]; simpl; [reflexivity|]. rewrite IH.
  destruct ds; simpl; [now rewrite digit_char_not_space|reflexivity].
Qed.

Lemma numeral_unsigned c r :
  Ascii.eqb c "+" = false ->
  Ascii.eqb c "-" = false ->
  numeral (String c r) = digits_from AtStart 0 (String c r).
Proof.
  intros Hp Hm.
  destruct c as [[] [] [] [] [] [] [] []]; try reflexivity; discriminate.
Qed.

Lemma count_digits_digits ds :
  count_digits (digits_string ds) = Z.of_nat (length ds).
Proof.
  induction ds as [|d ds IH]; [reflexivity|].
  cbn [digits_string count_digits length].
  rewrite digit_val_digit_char, IH. lia.
Qed.

(** [int] of a non-empty run of decimal digits, within the digit limit,
    is its decimal value. *)
Lemma py_int_digits d ds :
  Z.of_nat (length (d :: ds)) <= int_max_str_digits ->
  py_int (digits_string (d :: ds)) = Ok (digits_value (d :: ds) 0).
Proof.
  intros Hlen. unfold py_int.
  rewrite lstrip_digits, rstrip_digits, count_digits_digits.
  destruct (Z.ltb_spec int_max_str_digits (Z.of_nat (length (d :: ds))));
    [lia|].
  change (digits_string (d :: ds))
    with (String (digit_char d) (digits_string ds)).
  rewrite numeral_unsigned
    by (apply digit_char_not_plus || apply digit_char_not_hyphen).
  change (String (digit_char d) (digits_string ds))
    with (digits_string (d :: ds)).
  rewrite digits_from_digits; [reflexivity|now right].
Qed.

Lemma split_on_digits ds : split_on "-" (digits_string ds) = [digits_string ds].
Proof.
  induction ds as [|d ds IH]; simpl; [reflexivity|].
  now rewrite digit_char_not_hyphen, IH.
Qed.

Lemma split_on_digits_hyphen ds rest :
  split_on "-" (digits_string ds +:+ String "-" rest)
  = digits_string ds :: split_on "-" rest.
Proof.
  induction ds as [|d ds IH]; simpl; [reflexivity|].
  now rewrite digit_char_not_hyphen, IH.
Qed.

Lemma strftime_as_digits d :
  strftime_Ymd d
  = digits_string [dyear d / 1000; dyear d / 100; dyear d / 10; dyear d]
    +:+ String "-"
      (digits_string [dmonth d / 10; dmonth d]
       +:+ String "-" (digits_string [dday d / 10; dday d])).
Proof. reflexivity. Qed.

Lemma four_digits y :
  0 <= y < 10000 ->
  digits_value [y / 1000; y / 100; y / 10; y] 0 = y.
Proof.
  intros Hy. unfold digits_value. cbn [fold_left].
  Z.div_mod_to_equations. lia.
Qed.

Lemma two_digits m :
  0 <= m < 100 -> digits_value [m / 10; m] 0 = m.
Proof.
  intros Hm. unfold digits_value. cbn [fold_left].
  Z.div_mod_to_equations. lia.
Qed.

Lemma strftime_parses d :
  printable d ->
  parse_pubdate (PStr (strftime_Ymd d))
  = Ok (dyear d, if dmonth d =? 0 then 1 else dmonth d).
Proof.
  intros (Hy & Hm & _). apply parse_pubdate_ok.
  exists (strftime_Ymd d),
    (digits_string [dyear d / 1000; dyear d / 100; dyear d / 10; dyear d]),
    (digits_string [dmonth d / 10; dmonth d]),
    (digits_string [dday d / 10; dday d]),
    (dmonth d).
  split; [reflexivity|]. split; [|split; [|split; [|reflexivity]]].
  - rewrite strftime_as_digits, !split_on_digits_hyphen, split_on_digits.
    reflexivity.
  - rewrite py_int_digits by (unfold int_max_str_digits; simpl; lia).
    now rewrite four_digits.
  - rewrite py_int_digits by (unfold int_max_str_digits; simpl; lia).
    now rewrite two_digits.
Qed.

(** X15: a ten-character [YYYY-MM-DD] text always parses: the year and
    month come back as the numbers that were written, with month 00 read
    as 1. *)
Theorem well_formed_date_parses d :
  printable d ->
  parse_pubdate (PStr (strftime_Ymd d))
  = Ok (dyear d, if dmonth d =? 0 then 1 else dmonth d).
Proof. exact (strftime_parses d). Qed.

Lemma well_formed_date_parses_witness :
  parse_pubdate (PStr (strftime_Ymd (Date 2022 0 0)))
  = Ok (dyear (Date 2022 0 0),
        if dmonth (Date 2022 0 0) =? 0 then 1 else dmonth (Date 2022 0 0)).
Proof.
  apply (well_formed_date_parses (Date 2022 0 0)).
  unfold printable. simpl. lia.
Defined.

Lemma year_digits y :
  0 <= y < 10000 ->
  y = 1000 * ((y / 1000) mod 10) + 100 * ((y / 100) mod 10)
      + 10 * ((y / 10) mod 10) + y mod 10.
Proof. intros Hy. Z.div_mod_to_equations. lia. Qed.

Lemma pair_digits m :
  0 <= m < 100 -> m = 10 * ((m / 10) mod 10) + m mod 10.
Proof. intros Hm. Z.div_mod_to_equations. lia. Qed.

Lemma digit_range n : 0 <= n mod 10 <= 9.
Proof. pose proof (Z.mod_pos_bound n 10 ltac:(lia)). lia. Qed.

Lemma digit_code_ltb a b :
  0 <= a -> 0 <= b -> (Z.to_N (48 + a) <? Z.to_N (48 + b))%N = (a <? b).
Proof.
  intros Ha Hb.
  destruct (N.ltb_spec (Z.to_N (48 + a)) (Z.to_N (48 + b)));
    destruct (Z.ltb_spec a b); lia.
Qed.

Lemma digit_code_eqb a b :
  0 <= a -> 0 <= b -> (Z.to_N (48 + a) =? Z.to_N (48 + b))%N = (a =? b).
Proof.
  intros Ha Hb.
  destruct (N.eqb_spec (Z.to_N (48 + a)) (Z.to_N (48 + b)));
    destruct (Z.eqb_spec a b); lia.
Qed.

Lemma strftime_order d1 d2 :
  printable d1 -> printable d2 ->
  str_lt (strftime_Ymd d1) (strftime_Ymd d2) = (date_key d1 <? date_key d2).
Proof.
  intros (Hy1 & Hm1 & Hd1) (Hy2 & Hm2 & Hd2).
  unfold strftime_Ymd, date_key. cbn [str_lt].
  change (code "-") with 45%N.
  change ((45 <? 45)%N) with false. change ((45 =? 45)%N) with true.
  cbv iota. rewrite !code_digit_char.
  rewrite !digit_code_ltb, !digit_code_eqb by apply digit_range.
  pose proof (year_digits _ Hy1) as Ey1. pose proof (year_digits _ Hy2) as Ey2.
  pose proof (pair_digits _ Hm1) as Em1. pose proof (pair_digits _ Hm2) as Em2.
  pose proof (pair_digits _ Hd1) as Ed1. pose proof (pair_digits _ Hd2) as Ed2.
  repeat match goal with
         | |- context [(?n mod 10)] =>
             let R := fresh "R" in
             pose proof (digit_range n) as R;
             generalize dependent (n mod 10); intros
         end.
  repeat match goal with
         | |- context [?x <? ?y] => destruct (Z.ltb_spec x y)
         | |- context [?x =? ?y] => destruct (Z.eqb_spec x y)
         end; first [reflexivity|lia].
Qed.

(** X16: on ten-character [YYYY-MM-DD] texts the string order of the
    filter is the order of the dates (year, then month, then day). *)
Theorem date_text_order d1 d2 :
  printable d1 -> printable d2 ->
  str_lt (strftime_Ymd d1) (strftime_Ymd d2) = (date_key d1 <? date_key d2).
Proof. exact (strftime_order d1 d2). Qed.

Lemma date_text_order_witness :
  str_lt (strftime_Ymd (Date 2019 12 0)) (strftime_Ymd (Date 2020 5 0))
  = (date_key (Date 2019 12 0) <? date_key (Date 2020 5 0)).
Proof.
  apply (date_text_order (Date 2019 12 0) (Date 2020 5 0));
    unfold printable; simpl; lia.
Defined.

(** ** Texts that do not parse *)




(** ** Well-formed responses *)

Lemma dated_doc_step doc t0 b d cited now :
  dated_doc doc t0 b d ->
  printable cited ->
  printable now ->
  process_paper (Some (strftime_Ymd now, PStr (strftime_Ymd cited))) doc
  = Ok (row_in_range cited now t0 b d).
Proof.
  intros (fields & titles & -> & Ht & Ht0 & Hb & Hp & Hd) Hc Hn.
  unfold process_paper. cbn [getitem_str py_get]. rewrite Ht. cbn [obind].
  rewrite Ht0, Hb, Hp. cbn [obind should_skip].
  rewrite out_of_range_str, !strftime_order by assumption.
  unfold row_in_range. cbn [obind].
  destruct (_ || _); [reflexivity|].
  now rewrite strftime_parses.
Qed.

(** X18: a document with a title list, a bibcode and a ten-character
    [YYYY-MM-DD] pubdate never raises under the filter: it is skipped
    when its date is before the cited paper's or after the current date,
    and otherwise gives the row with its first title, bibcode, year and
    month (00 read as 1). *)
Theorem dated_doc_filtered doc t0 b d cited now :
  dated_doc doc t0 b d ->
  printable cited ->
  printable now ->
  process_paper (Some (strftime_Ymd now, PStr (strftime_Ymd cited))) doc
  = Ok (row_in_range cited now t0 b d).
Proof. exact (dated_doc_step doc t0 b d cited now). Qed.

Lemma dated_doc_filtered_witness :
  process_paper
    (Some (strftime_Ymd nov_2026, PStr (strftime_Ymd (Date 2020 5 0))))
    (mkdoc "No month" "2022C" "2022-00-00")
  = Ok (row_in_range (Date 2020 5 0) nov_2026
          (PStr "No month") (PStr "2022C") (Date 2022 0 0)).
Proof.
  apply (dated_doc_filtered (mkdoc "No month" "2022C" "2022-00-00")
           (PStr "No month") (PStr "2022C") (Date 2022 0 0)
           (Date 2020 5 0) nov_2026).
  - exists [("title", PList [PStr "No month"]); ("bibcode", PStr "2022C");
            ("pubdate", PStr "2022-00-00")], (PList [PStr "No month"]).
    repeat (split; [reflexivity|]). unfold printable. simpl. lia.
  - unfold printable. simpl. lia.
  - unfold printable. simpl. lia.
Defined.

(** X19: when the lookup returns a ten-character date text and every
    document of a 200 citing-papers answer has a title list, a bibcode
    and such a pubdate, the filtered fetch does not raise: it returns a
    table holding, in order, the rows of exactly the documents dated
    from the cited paper's date to the current date. *)
Theorem well_formed_fetch bib tok w t cited t1 resp docs :
  get_ads_paper_pubdate bib tok w t = (Ok (PStr (strftime_Ymd cited)), t1) ->
  printable cited ->
  printable (today w) ->
  http_get w (citing_request bib tok) = Some resp ->
  status_code resp = 200 ->
  response_docs resp = Ok docs ->
  Forall (fun doc => exists t0 b d, dated_doc doc t0 b d) docs ->
  exists df outs,
    get_ads_citing_papers bib tok true w t
    = (Ok (Frame df),
       t ++ [Get (pubdate_request bib tok); Get (citing_request bib tok)]) /\
    Forall2 (fun doc o =>
               exists t0 b d,
                 dated_doc doc t0 b d /\
                 o = row_in_range cited (today w) t0 b d) docs outs /\
    df.*2 = omap id outs.
Proof.
  intros Hlook Hc Hn Hresp Hs Hdocs Hall.
  set (ctx := Some (strftime_Ymd (today w), PStr (strftime_Ymd cited))).
  assert (Houts : exists outs,
             Forall2 (fun doc o => process_paper ctx doc = Ok o) docs outs /\
             Forall2 (fun doc o =>
                        exists t0 b d,
                          dated_doc doc t0 b d /\
                          o = row_in_range cited (today w) t0 b d) docs outs).
  { clear Hdocs. induction Hall as [|doc docs (t0 & b & d & Hd) _ (outs & H1 & H2)].
    - exists []. split; constructor.
    - exists (row_in_range cited (today w) t0 b d :: outs). split.
      + constructor; [|assumption]. now apply dated_doc_step.
      + constructor; [|assumption]. eauto. }
  destruct Houts as (outs & Hrun & Hrel).
  destruct (for_papers_complete _ _ _ Hrun [] well_labelled_nil)
    as (df & Hloop & Hrows).
  exists df, outs. split; [|split; [assumption|exact Hrows]].
  rewrite (fetch_reaches_query bib tok true w t (PStr (strftime_Ymd cited)))
    by (intros _; now rewrite Hlook).
  rewrite (citing_query_run _ _ _ _ _ _ _ _ Hresp Hs Hdocs Hloop).
  now rewrite <- app_assoc.
Qed.

Lemma well_formed_fetch_witness :
  exists df outs,
    get_ads_citing_papers "X" "token" true world_two_docs []
    = (Ok (Frame df),
       [] ++ [Get (pubdate_request "X" "token"); Get (citing_request "X" "token")]) /\
    Forall2 (fun doc o =>
               exists t0 b d,
                 dated_doc doc t0 b d /\
                 o = row_in_range (Date 2020 5 0) (today world_two_docs) t0 b d)
            two_docs outs /\
    df.*2 = omap id outs.
Proof.
  refine (well_formed_fetch "X" "token" world_two_docs [] (Date 2020 5 0) _ _
            two_docs eq_refl _ _ eq_refl eq_refl eq_refl _).
  - unfold printable. simpl. lia.
  - unfold printable. simpl. lia.
  - repeat constructor.
    + exists (PStr "First"), (PStr "2021A"), (Date 2021 3 0).
      eexists _, _. repeat (split; [reflexivity|]). unfold printable. simpl. lia.
    + exists (PStr "Second"), (PStr "2019B"), (Date 2019 12 0).
      eexists _, _. repeat (split; [reflexivity|]). unfold printable. simpl. lia.
Defined.

(** ** C8: parsing the retained pubdate *)




(** ** C10: the sentinel never reaches the parser under the filter *)

(** On the sentinel the filter test never answers "keep": it answers
    "skip", or raises what the comparison with the cited pubdate raises. *)
Lemma out_of_range_Unknown cited dt :
  out_of_range cited (PStr "Unknown") (strftime_Ymd dt)
  = if is_none cited then Ok true
    else let! _ := py_lt (PStr "Unknown") cited in Ok true.
Proof.
  unfold out_of_range, py_gt. destruct (is_none cited); [reflexivity|].
  destruct (py_lt (PStr "Unknown") cited) as [[]|]; cbn [obind]; try reflexivity.
  cbn [py_lt]. now rewrite now_before_Unknown.
Qed.

Lemma undated_doc_step cited dt doc :
  undated_doc doc ->
  process_paper (Some (strftime_Ymd dt, cited)) doc
  = if is_none cited then Ok None
    else let! _ := py_lt (PStr "Unknown") cited in Ok None.
Proof.
  intros (fields & titles & t0 & b & -> & Ht & Ht0 & Hb & Hp).
  unfold process_paper. cbn [getitem_str py_get]. rewrite Ht. cbn [obind].
  rewrite Ht0, Hb, Hp. cbn [obind should_skip]. rewrite out_of_range_Unknown.
  destruct (is_none cited); [reflexivity|].
  now destruct (py_lt (PStr "Unknown") cited).
Qed.

(** C10: the sentinel "Unknown" is lexicographically later than every
    current-date string, so on it the filter test never answers "keep";
    a document whose pubdate is absent is therefore never parsed under
    the filter: the loop body skips it (or raises what comparing the
    sentinel with a cited pubdate that is not a string raises, never the
    [ValueError] of the split).  A filtered fetch whose lookup gave a
    string date and whose documents are undated ones and ones the
    unfiltered loop body turns into a row returns a table, with no row
    for the undated documents. *)
Theorem C10_unknown_excluded :
  (forall dt, lex_lt (strftime_Ymd dt) "Unknown") /\
  (forall cited dt,
      out_of_range cited (PStr "Unknown") (strftime_Ymd dt)
      = if is_none cited then Ok true
        else let! _ := py_lt (PStr "Unknown") cited in Ok true) /\
  (forall cited dt doc,
      undated_doc doc ->
      process_paper (Some (strftime_Ymd dt, cited)) doc
      = if is_none cited then Ok None
        else let! _ := py_lt (PStr "Unknown") cited in Ok None) /\
  (forall c dt doc,
      undated_doc doc ->
      process_paper (Some (strftime_Ymd dt, PStr c)) doc = Ok None) /\
  (forall bib tok w t c t1 resp docs,
      get_ads_paper_pubdate bib tok w t = (Ok (PStr c), t1) ->
      http_get w (citing_request bib tok) = Some resp ->
      status_code resp = 200 ->
      response_docs resp = Ok docs ->
      Forall (fun doc =>
                undated_doc doc \/ exists r, process_paper None doc = Ok (Some r))
             docs ->
      exists df outs,
        get_ads_citing_papers bib tok true w t
        = (Ok (Frame df),
           t ++ [Get (pubdate_request bib tok); Get (citing_request bib tok)]) /\
        Forall2 (fun doc o =>
                   process_paper (Some (strftime_Ymd (today w), PStr c)) doc = Ok o /\
                   (undated_doc doc -> o = None)) docs outs /\
        df.*2 = omap id outs).
Proof.
  split; [intros dt; apply str_lt_lex, now_before_Unknown|].
  split; [exact out_of_range_Unknown|].
  split; [exact undated_doc_step|].
  assert (Hstr : forall c dt doc,
             undated_doc doc ->
             process_paper (Some (strftime_Ymd dt, PStr c)) doc = Ok None).
  { intros c dt doc Hdoc. now rewrite undated_doc_step. }
  split; [exact Hstr|].
  intros bib tok w t c t1 resp docs Hlook Hresp Hs Hdocs Hall.
  set (ctx := Some (strftime_Ymd (today w), PStr c)).
  assert (Houts : exists outs,
             Forall2 (fun doc o =>
                        process_paper ctx doc = Ok o /\
                        (undated_doc doc -> o = None)) docs outs).
  { clear Hdocs. induction Hall as [|doc docs Hdoc _ (outs & Houts)].
    - exists []. constructor.
    - destruct Hdoc as [Hu|(r & Hr)].
      + exists (None :: outs). constructor; [|assumption].
        split; [now apply Hstr|reflexivity].
      + destruct (process_paper_filtered (strftime_Ymd (today w)) c doc r Hr)
          as (p & Hget & Hp).
        eexists (_ :: outs). constructor; [|eassumption].
        split; [exact Hp|]. intros Hu.
        pose proof (Hstr c (today w) doc Hu) as Hn. congruence. }
  destruct Houts as (outs & Houts).
  assert (Hrun : Forall2 (fun doc o => process_paper ctx doc = Ok o) docs outs).
  { eapply Forall2_impl; [exact Houts|]. now intros doc o [H _]. }
  destruct (for_papers_complete _ _ _ Hrun [] well_labelled_nil)
    as (df & Hloop & Hrows).
  exists df, outs. split; [|split; [assumption|exact Hrows]].
  rewrite (fetch_reaches_query bib tok true w t (PStr c))
    by (intros _; now rewrite Hlook).
  rewrite (citing_query_run _ _ _ _ _ _ _ _ Hresp Hs Hdocs Hloop).
  now rewrite <- app_assoc.
Qed.

(** The spec scenario: its undated record is skipped and the fetch
    returns the table of the three records in range. *)
Lemma C10_unknown_excluded_witness :
  process_paper (Some (strftime_Ymd nov_2026, PStr "2020-05-00"))
    (PDict [("title", PList [PStr "Undated"]); ("bibcode", PStr "2023E")])
  = Ok None /\
  exists df outs,
    get_ads_citing_papers "2020ApJ...900..100X" "token" true world_scenario []
    = (Ok (Frame df),
       [] ++ [Get (pubdate_request "2020ApJ...900..100X" "token");
              Get (citing_request "2020ApJ...900..100X" "token")]) /\
    Forall2 (fun doc o =>
               process_paper
                 (Some (strftime_Ymd (today world_scenario), PStr "2020-05-00"))
                 doc = Ok o /\
               (undated_doc doc -> o = None)) scenario_docs outs /\
    df.*2 = omap id outs.
Proof.
  assert (Hu : undated_doc
                 (PDict [("title", PList [PStr "Undated"]);
                         ("bibcode", PStr "2023E")])).
  { exists [("title", PList [PStr "Undated"]); ("bibcode", PStr "2023E")],
      (PList [PStr "Undated"]), (PStr "Undated"), (PStr "2023E").
    repeat split. }
  split.
  - exact (proj1 (proj2 (proj2 (proj2 C10_unknown_excluded)))
             "2020-05-00" nov_2026 _ Hu).
  - refine (proj2 (proj2 (proj2 (proj2 C10_unknown_excluded)))
              "2020ApJ...900..100X" "token" world_scenario [] "2020-05-00"
              _ _ scenario_docs eq_refl eq_refl eq_refl eq_refl _).
    unfold scenario_docs.
    repeat (apply List.Forall_cons;
            [first [right; eexists; reflexivity | left; exact Hu]|]).
    apply List.Forall_nil.
Defined.
